(** * A banking simulation: users, accounts, transactions and transfers

    Shallow embedding of [models.py] and [services.py].

    Python objects live in a heap, one list per class; an object reference
    is the index at which the object was allocated, and objects are never
    freed.  Methods that mutate [self] are state transformers on the whole
    world, so that two references to the same object (the source and the
    destination of a self-transfer, the account stored in the database and
    the one held by a transaction) see each other's writes.

    Python exceptions are modelled by an error monad over the world state:
    a raised exception keeps every write made before the [raise].

    Amounts and balances are binary64 floating-point numbers, as Python's
    [float]: the primitive floats of Rocq, with their correctly rounded
    addition and subtraction, their infinities and signed zeros, and NaN,
    on which every comparison is false.  A parameter annotated [float]
    holds such a number; [float(x)], which the two constructors call,
    also takes an [int]. *)

From Stdlib Require Import ZArith QArith Lqa Floats Sorted.
From stdpp Require Import gmap strings list list_numbers pretty.

Local Open Scope Z_scope.

(** ** Numbers *)

(** A binary64 number. *)
Abbreviation f64 := PrimFloat.float (only parsing).

(** What a caller can pass where a number is expected: an [int], of any
    size, or a [float]. *)
Inductive number :=
| PyInt (z : Z)
| PyFloat (f : f64).

(** ** Object references and classes *)

(** The index of an object in the heap of its class. *)
Abbreviation ref := nat (only parsing).

(** [class User]: [self.accounts] is a list of Account objects. *)
Record User := mkUser {
  user_id : Z;
  name : string;
  accounts : list ref
}.

(** [class Account]: [owner] is a User object, [_transactions] a list of
    Transaction objects. *)
Record Account := mkAccount {
  account_id : Z;
  owner : ref;
  balance : f64;
  _transactions : list ref
}.

Inductive Status := PENDING | COMPLETED | FAILED.

(** [class Transaction]: [source] and [destination] are what the caller
    passes, an Account object or [None]. *)
Record Transaction := mkTransaction {
  tx_id : Z;
  source : option ref;
  destination : option ref;
  amount : f64;
  status : Status
}.

(** [Database._store]: three dicts keyed by integer id, holding objects. *)
Record Database := mkDatabase {
  store_users : gmap Z ref;
  store_accounts : gmap Z ref;
  store_transactions : gmap Z ref
}.

(** [class BankingService]: [db] and [notifier] refer to the one database
    and the one notifier of the world. *)
Record BankingService := mkBankingService {
  _next_tx_id : Z
}.

(** The three f-strings built by [BankingService.transfer]. *)
Inductive message :=
| Succeeded (amount : f64) (dest_account_id : Z)
| Received (amount : f64) (source_account_id : Z)
| TransferFailed (amount : f64).

(** One line printed by [NotificationService.notify]: the user it was
    called with, the name it printed, the message. *)
Record Notification := mkNotification {
  recipient : ref;
  recipient_name : string;
  text : message
}.

Record World := mkWorld {
  users_heap : list User;
  accounts_heap : list Account;
  txs_heap : list Transaction;
  db : Database;
  bank : BankingService;
  stdout : list Notification
}.

(** ** Exceptions and the state-and-error monad *)

Inductive exn :=
| ValueError (msg : string)
| AttributeError   (* attribute access on [None] *)
| OverflowError    (* [float] of an [int] beyond the binary64 range *)
| InvalidRef.      (* a reference to an object that was never allocated:
                      cannot happen in Python, kept to make lookups total *)

Inductive result (A : Type) :=
| Returned (a : A)
| Raised (e : exn).
Arguments Returned {A} a.
Arguments Raised {A} e.

Definition M (A : Type) : Type := World -> result A * World.

Definition ret {A} (a : A) : M A := fun w => (Returned a, w).

Definition raise {A} (e : exn) : M A := fun w => (Raised e, w).

Definition bind {A B} (c : M A) (k : A -> M B) : M B :=
  fun w =>
    match c w with
    | (Returned a, w') => k a w'
    | (Raised e, w') => (Raised e, w')
    end.

(** [try: c except Exception: h] *)
Definition try_except {A} (c : M A) (h : exn -> M A) : M A :=
  fun w =>
    match c w with
    | (Returned a, w') => (Returned a, w')
    | (Raised e, w') => h e w'
    end.

(** The notations [x ← c; k] and [c;; k] stand for [bind]. *)
#[export] Instance M_ret : MRet M := @ret.
#[export] Instance M_bind : MBind M := fun A B k c => bind c k.

Definition gets {A} (f : World -> A) : M A := fun w => (Returned (f w), w).

(** A computation that does not touch the world. *)
Definition of_result {A} (r : result A) : M A := fun w => (r, w).

Definition modify (f : World -> World) : M unit := fun w => (Returned tt, f w).

(** Reading an attribute of an object: the object must have been allocated. *)
Definition deref {A} (heap : World -> list A) (r : ref) : M A :=
  fun w =>
    match heap w !! r with
    | Some o => (Returned o, w)
    | None => (Raised InvalidRef, w)
    end.

(** [x.attr] where [x] may be [None]. *)
Definition not_none {A} (o : option A) : M A :=
  match o with
  | Some r => ret r
  | None => raise AttributeError
  end.

(** ** World updates *)

Definition set_users_heap (h : list User) (w : World) : World :=
  mkWorld h (accounts_heap w) (txs_heap w) (db w) (bank w) (stdout w).

Definition set_accounts_heap (h : list Account) (w : World) : World :=
  mkWorld (users_heap w) h (txs_heap w) (db w) (bank w) (stdout w).

Definition set_txs_heap (h : list Transaction) (w : World) : World :=
  mkWorld (users_heap w) (accounts_heap w) h (db w) (bank w) (stdout w).

Definition set_db (d : Database) (w : World) : World :=
  mkWorld (users_heap w) (accounts_heap w) (txs_heap w) d (bank w) (stdout w).

Definition set_bank (b : BankingService) (w : World) : World :=
  mkWorld (users_heap w) (accounts_heap w) (txs_heap w) (db w) b (stdout w).

Definition set_stdout (o : list Notification) (w : World) : World :=
  mkWorld (users_heap w) (accounts_heap w) (txs_heap w) (db w) (bank w) o.

Definition read_user : ref -> M User := deref users_heap.
Definition read_account : ref -> M Account := deref accounts_heap.
Definition read_tx : ref -> M Transaction := deref txs_heap.

Definition write_user (r : ref) (u : User) : M unit :=
  modify (fun w => set_users_heap (<[r:=u]> (users_heap w)) w).

Definition write_account (r : ref) (a : Account) : M unit :=
  modify (fun w => set_accounts_heap (<[r:=a]> (accounts_heap w)) w).

Definition write_tx (r : ref) (t : Transaction) : M unit :=
  modify (fun w => set_txs_heap (<[r:=t]> (txs_heap w)) w).

(** Allocation of a new object: it gets the next free index. *)
Definition new_user (u : User) : M ref :=
  fun w => (Returned (length (users_heap w)),
            set_users_heap (users_heap w ++ [u]) w).

Definition new_account (a : Account) : M ref :=
  fun w => (Returned (length (accounts_heap w)),
            set_accounts_heap (accounts_heap w ++ [a]) w).

Definition new_tx (t : Transaction) : M ref :=
  fun w => (Returned (length (txs_heap w)),
            set_txs_heap (txs_heap w ++ [t]) w).

(** ** Built-in conversions and comparisons *)

(** The binary64 number nearest to an integer, ties to even; integers
    beyond the range round to an infinity. *)
Definition round_int (z : Z) : spec_float := binary_normalize prec emax z 0 false.

(** [float(x)]: a [float] is returned as it is; an [int] is rounded to the
    nearest binary64 number, and [OverflowError] is raised when that is
    out of range. *)
Definition float (x : number) : result f64 :=
  match x with
  | PyFloat f => Returned f
  | PyInt z =>
      match round_int z with
      | S754_infinity _ => Raised OverflowError
      | r => Returned (SF2Prim r)
      end
  end.

(** The comparisons of the program are those of binary64: [x <= y] is
    [(x <=? y)%float], [x > y] is [(y <? x)%float] and [x >= y] is
    [(y <=? x)%float]; comparing with the [int] literal [0] is comparing
    with the number zero. *)

(** ** models.py *)

(** [User.__init__] *)
Definition User_init (user_id : Z) (name : string) : M ref :=
  new_user (mkUser user_id name []).

(** [User.add_account] *)
Definition add_account (self : ref) (account : ref) : M unit :=
  u ← read_user self;
  write_user self (mkUser (user_id u) (name u) (accounts u ++ [account])).

(** [Account.__init__]: no check on [balance].  The object exists for the
    caller once the constructor returns; when [float] raises there is no
    new account. *)
Definition Account_init (account_id : Z) (owner : ref) (balance : number) : M ref :=
  b ← of_result (float balance);
  self ← new_account (mkAccount account_id owner b []);
  add_account owner self;;
  ret self.

(** [Account.deposit] *)
Definition deposit (self : ref) (amount : f64) : M unit :=
  if (amount <=? 0)%float then raise (ValueError "Amount must be positive")
  else
    a ← read_account self;
    write_account self
      (mkAccount (account_id a) (owner a) (balance a + amount) (_transactions a)).

(** [Account.withdraw] *)
Definition withdraw (self : ref) (amount : f64) : M unit :=
  if (amount <=? 0)%float then raise (ValueError "Amount must be positive")
  else
    a ← read_account self;
    if (balance a <? amount)%float then raise (ValueError "Insufficient funds")
    else
      write_account self
        (mkAccount (account_id a) (owner a) (balance a - amount) (_transactions a)).

(** [Account.add_transaction] *)
Definition add_transaction (self : ref) (tx : ref) : M unit :=
  a ← read_account self;
  write_account self
    (mkAccount (account_id a) (owner a) (balance a) (_transactions a ++ [tx])).

(** [Account.get_balance] *)
Definition get_balance (self : ref) : M f64 :=
  a ← read_account self;
  ret (balance a).

(** [Transaction.__init__]: stores whatever it is given, [None] included. *)
Definition Transaction_init (tx_id : Z) (source destination : option ref)
    (amount : number) : M ref :=
  a ← of_result (float amount);
  new_tx (mkTransaction tx_id source destination a PENDING).

(** [self.status = s] *)
Definition set_status (self : ref) (s : Status) : M unit :=
  t ← read_tx self;
  write_tx self (mkTransaction (tx_id t) (source t) (destination t) (amount t) s).

(** [Transaction.validate]: [and] evaluates its right operand only when the
    left one is true. *)
Definition validate (self : ref) : M bool :=
  t ← read_tx self;
  if (0 <? amount t)%float then
    src ← not_none (source t);
    b ← get_balance src;
    ret (amount t <=? b)%float
  else ret false.

(** [Transaction.process]: the [validate] call is outside the [try]. *)
Definition process (self : ref) : M bool :=
  ok ← validate self;
  if negb ok then
    set_status self FAILED;;
    ret false
  else
    try_except
      (t ← read_tx self;
       src ← not_none (source t);
       withdraw src (amount t);;
       dst ← not_none (destination t);
       deposit dst (amount t);;
       src' ← not_none (source t);
       add_transaction src' self;;
       dst' ← not_none (destination t);
       add_transaction dst' self;;
       set_status self COMPLETED;;
       ret true)
      (fun exc =>
         set_status self FAILED;;
         ret false).

(** ** services.py *)

(** [Database.save_user] *)
Definition save_user (user : ref) : M unit :=
  u ← read_user user;
  modify (fun w => set_db (mkDatabase (<[user_id u := user]> (store_users (db w)))
                                      (store_accounts (db w))
                                      (store_transactions (db w))) w).

(** [Database.save_account] *)
Definition save_account (account : ref) : M unit :=
  a ← read_account account;
  modify (fun w => set_db (mkDatabase (store_users (db w))
                                      (<[account_id a := account]> (store_accounts (db w)))
                                      (store_transactions (db w))) w).

(** [Database.save_transaction] *)
Definition save_transaction (tx : ref) : M unit :=
  t ← read_tx tx;
  modify (fun w => set_db (mkDatabase (store_users (db w))
                                      (store_accounts (db w))
                                      (<[tx_id t := tx]> (store_transactions (db w)))) w).

(** [Database.get_user] *)
Definition get_user (user_id : Z) : M (option ref) :=
  gets (fun w => store_users (db w) !! user_id).

(** [AuthService.login] *)
Definition login (user_id : Z) : M (option ref) :=
  user ← get_user user_id;
  ret user.

(** [NotificationService.notify] *)
Definition notify (user : ref) (msg : message) : M unit :=
  u ← read_user user;
  modify (fun w => set_stdout (stdout w ++ [mkNotification user (name u) msg]) w).

(** [BankingService.__init__] *)
Definition BankingService_init : BankingService := mkBankingService 1.

(** [BankingService.list_accounts] *)
Definition list_accounts (user : ref) : M (list ref) :=
  u ← read_user user;
  ret (accounts u).

(** [x.owner] and [x.account_id] where [x] is the result of a dict [get]. *)
Definition attr_owner (x : option ref) : M ref :=
  r ← not_none x;
  a ← read_account r;
  ret (owner a).

Definition attr_account_id (x : option ref) : M Z :=
  r ← not_none x;
  a ← read_account r;
  ret (account_id a).

(** [BankingService.transfer]; [amount] is a [float], as annotated.
    Arguments of a call are evaluated left to right: the owner first, then
    the f-string. *)
Definition transfer (source_account_id dest_account_id : Z) (amount : f64) : M ref :=
  source ← gets (fun w => store_accounts (db w) !! source_account_id);
  dest ← gets (fun w => store_accounts (db w) !! dest_account_id);
  next ← gets (fun w => _next_tx_id (bank w));
  tx ← Transaction_init next source dest (PyFloat amount);
  modify (fun w => set_bank (mkBankingService (_next_tx_id (bank w) + 1)) w);;
  success ← process tx;
  save_transaction tx;;
  (if (success : bool) then
     so ← attr_owner source;
     did ← attr_account_id dest;
     notify so (Succeeded amount did);;
     downer ← attr_owner dest;
     sid ← attr_account_id source;
     notify downer (Received amount sid)
   else
     so ← attr_owner source;
     notify so (TransferFailed amount));;
  ret tx.

(** The part of [transfer] that follows the construction of the transaction
    and the increment of the counter. *)
Definition transfer_rest (source dest : option ref) (amount : f64) (tx : ref) : M ref :=
  success ← process tx;
  save_transaction tx;;
  (if (success : bool) then
     so ← attr_owner source;
     did ← attr_account_id dest;
     notify so (Succeeded amount did);;
     downer ← attr_owner dest;
     sid ← attr_account_id source;
     notify downer (Received amount sid)
   else
     so ← attr_owner source;
     notify so (TransferFailed amount));;
  ret tx.

(** ** main.py *)

Definition empty_world : World :=
  mkWorld [] [] [] (mkDatabase ∅ ∅ ∅) BankingService_init [].

(** [seed_data]; returns [alice, bob, a1, a2, b1]. *)
Definition seed_data : M (ref * ref * ref * ref * ref) :=
  alice ← User_init 1 "Alice";
  bob ← User_init 2 "Bob";
  a1 ← Account_init 101 alice (PyFloat 500);
  a2 ← Account_init 102 alice (PyFloat 150);
  b1 ← Account_init 201 bob (PyFloat 300);
  save_user alice;;
  save_user bob;;
  save_account a1;;
  save_account a2;;
  save_account b1;;
  ret (alice, bob, a1, a2, b1).

(** The world after [db = Database(); seed_data(db); bank = BankingService(db, notifier)]. *)
Definition seeded : World := snd (seed_data empty_world).

(** ** Sequences of calls at the public interface *)

(** One call of a constructor or public method.  A caller may catch the
    exception of a call or not; in both cases the objects keep the state the
    call left them in. *)
Inductive Op :=
| OpUser (user_id : Z) (name : string)
| OpAddAccount (user account : ref)
| OpAccount (account_id : Z) (owner : ref) (balance : number)
| OpDeposit (account : ref) (amount : f64)
| OpWithdraw (account : ref) (amount : f64)
| OpAddTransaction (account tx : ref)
| OpTransaction (tx_id : Z) (source destination : option ref) (amount : number)
| OpValidate (tx : ref)
| OpProcess (tx : ref)
| OpSaveUser (user : ref)
| OpSaveAccount (account : ref)
| OpSaveTransaction (tx : ref)
| OpLogin (user_id : Z)
| OpListAccounts (user : ref)
| OpNotify (user : ref) (msg : message)
| OpTransfer (source_account_id dest_account_id : Z) (amount : f64).

Definition exec (o : Op) (w : World) : World :=
  match o with
  | OpUser i n => snd (User_init i n w)
  | OpAddAccount u a => snd (add_account u a w)
  | OpAccount i o b => snd (Account_init i o b w)
  | OpDeposit a x => snd (deposit a x w)
  | OpWithdraw a x => snd (withdraw a x w)
  | OpAddTransaction a t => snd (add_transaction a t w)
  | OpTransaction i s d x => snd (Transaction_init i s d x w)
  | OpValidate t => snd (validate t w)
  | OpProcess t => snd (process t w)
  | OpSaveUser u => snd (save_user u w)
  | OpSaveAccount a => snd (save_account a w)
  | OpSaveTransaction t => snd (save_transaction t w)
  | OpLogin i => snd (login i w)
  | OpListAccounts u => snd (list_accounts u w)
  | OpNotify u m => snd (notify u m w)
  | OpTransfer s d x => snd (transfer s d x w)
  end.

Definition run (ops : list Op) (w : World) : World := foldl (fun w o => exec o w) w ops.

(** No account has a negative balance: [balance < 0] is false for each.
    A NaN balance is not negative, and is not [>= 0] either. *)
Definition nonneg_balances (w : World) : Prop :=
  Forall (fun a => (balance a <? 0)%float = false) (accounts_heap w).

(** An account creation whose initial balance, once converted, is not
    negative; any other call. *)
Definition creates_nonneg (o : Op) : Prop :=
  match o with
  | OpAccount _ _ b => forall f, float b = Returned f -> (f <? 0)%float = false
  | _ => True
  end.

(** A sequence of [transfer] calls on the one orchestrator of the world. *)
Definition transfers (calls : list (Z * Z * f64)) (w : World) : World :=
  foldl (fun w c => snd (transfer c.1.1 c.1.2 c.2 w)) w calls.

(** The ids of the transactions constructed since the heap held [n] of them,
    in the order of their construction. *)
Definition tx_ids_from (n : nat) (w : World) : list Z :=
  tx_id <$> drop n (txs_heap w).

(** [c] maintains [I], whether it returns or raises. *)
Definition preserves {A} (I : World -> Prop) (c : M A) : Prop :=
  forall w, I w -> I (snd (c w)).

(** ** The remaining methods and the notions used to state their properties *)

(** [User.get_profile]: a dict of three strings; [str] of an integer is its
    decimal representation. *)
Definition get_profile (self : ref) : M (gmap string string) :=
  u ← read_user self;
  ret (<["user_id" := pretty (user_id u)]>
         (<["name" := name u]>
            (<["accounts" := pretty (length (accounts u))]> ∅))).

(** The rational number a finite binary64 number stands for. *)
Definition value (x : f64) : option Q :=
  match Prim2SF x with
  | S754_zero _ => Some 0%Q
  | S754_finite s m e => Some ((if s then -1 else 1) * (Zpos m # 1) * 2 ^ e)%Q
  | _ => None
  end.

(** [x - y], as the program computes it, is the difference of the two
    numbers: nothing was rounded. *)
Definition exact_sub (x y : f64) : Prop :=
  exists vx vy vr,
    value x = Some vx /\ value y = Some vy /\ value (x - y)%float = Some vr /\
    (vr == vx - vy)%Q.

(** [x + y], as the program computes it, is the sum of the two numbers. *)
Definition exact_add (x y : f64) : Prop :=
  exists vx vy vr,
    value x = Some vx /\ value y = Some vy /\ value (x + y)%float = Some vr /\
    (vr == vx + vy)%Q.

(** The numbers [a] and [b] add up to what [c] and [d] add up to. *)
Definition same_sum (a b c d : f64) : Prop :=
  exists va vb vc vd,
    value a = Some va /\ value b = Some vb /\ value c = Some vc /\
    value d = Some vd /\ (va + vb == vc + vd)%Q.

(** The numbers [a] and [b] are equal. *)
Definition same_value (a b : f64) : Prop :=
  exists va vb, value a = Some va /\ value b = Some vb /\ (va == vb)%Q.


(** [t'] is [t] up to its status. *)
Definition same_transaction (t t' : Transaction) : Prop :=
  tx_id t' = tx_id t /\ source t' = source t /\
  destination t' = destination t /\ amount t' = amount t.

(** [a'] is [a] with another balance and a longer history. *)
Definition account_grows (a a' : Account) : Prop :=
  account_id a' = account_id a /\ owner a' = owner a /\
  _transactions a `prefix_of` _transactions a'.

(** The transaction [r], which was [t], is still there and the same up to
    its status. *)
Definition keeps_transaction (r : ref) (t : Transaction) (w : World) : Prop :=
  exists t', txs_heap w !! r = Some t' /\ same_transaction t t'.

(** The account [r], which was [a], is still there, with the same id and
    owner and a history that extends the one of [a]. *)
Definition keeps_account (r : ref) (a : Account) (w : World) : Prop :=
  exists a', accounts_heap w !! r = Some a' /\ account_grows a a'.

(** A number of the specification of binary64 that is not below zero. *)
Definition not_negative (r : spec_float) : Prop := SFltb r (S754_zero false) = false.

(** * Properties *)

(** ** Binary64 comparisons and signs *)

Lemma Prim2SF_zero : Prim2SF 0%float = S754_zero false.
Proof. reflexivity. Qed.

Section Spec.
Variables prec emax : Z.

(** Rounding a positive integer never gives a negative number. *)
Lemma binary_round_aux_not_negative m e l :
  not_negative (binary_round_aux prec emax false m e l).
Proof.
  unfold binary_round_aux.
  destruct (shr_fexp prec emax m e l) as [mrs' e'].
  destruct (shr_fexp prec emax _ e' loc_Exact) as [mrs'' e''].
  destruct (shr_m mrs''); [reflexivity| |reflexivity].
  destruct (e'' <=? emax - prec); reflexivity.
Qed.

Lemma binary_normalize_not_negative m e s :
  0 <= m -> not_negative (binary_normalize prec emax m e s).
Proof.
  intros Hm. destruct m as [|m|m]; [reflexivity| |lia].
  unfold binary_normalize, binary_round.
  destruct (shl_align _ _ _). apply binary_round_aux_not_negative.
Qed.

(** Swapping the operands of a comparison reverses its outcome. *)
Lemma SFcompare_antisym x y c :
  SFcompare x y = Some c -> SFcompare y x = Some (CompOpp c).
Proof.
  destruct x as [sx|sx| |sx mx ex], y as [sy|sy| |sy my ey]; cbn;
    try discriminate; try (intros [= <-]; repeat case_match; reflexivity).
  intros [= <-]. f_equal. destruct sx, sy; try reflexivity.
  - rewrite (Z.compare_antisym ex ey). destruct (ex ?= ey); cbn; try reflexivity.
    rewrite CompOpp_involutive. exact (Pos.compare_cont_antisym my mx Eq).
  - rewrite (Z.compare_antisym ex ey). destruct (ex ?= ey); cbn; try reflexivity.
    symmetry. exact (Pos.compare_cont_antisym mx my Eq).
Qed.

Lemma SFleb_SFltb x y : SFleb x y = true -> SFltb y x = false.
Proof.
  unfold SFleb, SFltb. destruct (SFcompare x y) as [c|] eqn:E; [|discriminate].
  rewrite (SFcompare_antisym _ _ _ E). destruct c; cbn; congruence.
Qed.

Lemma SFltb_SFleb x y : SFltb x y = true -> SFleb y x = false.
Proof.
  unfold SFleb, SFltb. destruct (SFcompare x y) as [c|] eqn:E; [|discriminate].
  rewrite (SFcompare_antisym _ _ _ E). destruct c; cbn; congruence.
Qed.
End Spec.

(** The sign of a sum and of a difference.  For the difference the two
    numbers must be canonical: their order is then the order of their
    exponents, and of their mantissas when the exponents agree. *)
Section Sub.
Variables prec emax : Z.
Hypothesis prec_pos : 0 < prec.

Lemma digits2_pos_bounds (m : positive) :
  2 ^ (Zpos (digits2_pos m) - 1) <= Zpos m < 2 ^ Zpos (digits2_pos m).
Proof.
  induction m as [m IH|m IH|]; cbn [digits2_pos].
  - rewrite Pos2Z.inj_succ. replace (Z.succ (Zpos (digits2_pos m)) - 1) with (Zpos (digits2_pos m)) by lia.
    rewrite Z.pow_succ_r by lia.
    replace (Zpos (digits2_pos m)) with (Z.succ (Zpos (digits2_pos m) - 1)) at 1 by lia.
    rewrite Z.pow_succ_r by lia. lia.
  - rewrite Pos2Z.inj_succ. replace (Z.succ (Zpos (digits2_pos m)) - 1) with (Zpos (digits2_pos m)) by lia.
    rewrite Z.pow_succ_r by lia.
    replace (Zpos (digits2_pos m)) with (Z.succ (Zpos (digits2_pos m) - 1)) at 1 by lia.
    rewrite Z.pow_succ_r by lia. lia.
  - cbn. lia.
Qed.

Lemma iter_xO (m d : positive) : Zpos (Pos.iter xO m d) = Zpos m * 2 ^ Zpos d.
Proof.
  induction d as [|d IH] using Pos.peano_ind.
  - cbn. lia.
  - rewrite Pos.iter_succ, Pos2Z.inj_succ, Z.pow_succ_r by lia.
    rewrite Pos2Z.inj_xO, IH. lia.
Qed.

(** Among canonical positive floats, a larger exponent means a larger value. *)
Lemma aligned_le (mx my : positive) (ex ey : Z) :
  bounded prec emax mx ex = true -> bounded prec emax my ey = true ->
  ey < ex ->
  Zpos (fst (shl_align my ey (Z.min ex ey))) <= Zpos (fst (shl_align mx ex (Z.min ex ey))).
Proof.
  unfold bounded, canonical_mantissa, fexp.
  intros [Hx _]%andb_prop [Hy _]%andb_prop Hlt.
  apply Z.eqb_eq in Hx, Hy.
  rewrite Z.min_r by lia. unfold shl_align.
  rewrite Z.sub_diag. cbn [fst].
  destruct (ey - ex) as [|d|d] eqn:Hd; try lia. cbn [fst].
  rewrite iter_xO.
  assert (Zpos d = ex - ey) as -> by lia.
  pose proof (digits2_pos_bounds mx) as [Hmx _].
  pose proof (digits2_pos_bounds my) as [_ Hmy].
  assert (Zpos (digits2_pos my) <= prec) as Hdy by lia.
  assert (Zpos (digits2_pos mx) = prec) as Hdx by lia.
  rewrite Hdx in Hmx.
  assert (Zpos my < 2 ^ prec).
  { eapply Z.lt_le_trans; [exact Hmy|]. apply Z.pow_le_mono_r; lia. }
  assert (2 ^ 1 <= 2 ^ (ex - ey)) by (apply Z.pow_le_mono_r; lia).
  assert (2 ^ prec = 2 ^ (prec - 1) * 2).
  { replace prec with (Z.succ (prec - 1)) at 1 by lia.
    rewrite Z.pow_succ_r by lia. lia. }
  change (2 ^ 1) with 2 in *. nia.
Qed.

Lemma SFsub_not_negative (x y : spec_float) :
  SpecFloat.valid_binary prec emax x = true -> SpecFloat.valid_binary prec emax y = true ->
  SFleb y (S754_zero false) = false -> SFltb x y = false ->
  not_negative (SFsub prec emax x y).
Proof.
  intros Vx Vy Hy Hxy. unfold not_negative.
  destruct x as [sx|sx| |sx mx ex], y as [sy|sy| |sy my ey];
    try destruct sx; try destruct sy;
    unfold SFleb, SFltb in *; cbn [SFcompare SFsub negb] in *;
    try discriminate; try reflexivity.
  apply binary_normalize_not_negative. cbn [cond_Zopp].
  destruct (ex ?= ey) eqn:E; try discriminate Hxy.
  - apply Z.compare_eq in E. subst ey. rewrite Z.min_id.
    unfold shl_align. rewrite Z.sub_diag. cbn [fst].
    change (PosDef.Pos.compare_cont Eq mx my) with (Pos.compare mx my) in Hxy.
    destruct (Pos.compare mx my) eqn:E'; try discriminate Hxy.
    + apply Pos.compare_eq in E'. subst. lia.
    + apply Pos.compare_gt_iff in E'. lia.
  - apply Z.compare_gt_iff in E.
    pose proof (aligned_le mx my ex ey Vx Vy E). lia.
Qed.

Lemma SFadd_not_negative (x y : spec_float) :
  not_negative x -> SFleb y (S754_zero false) = false ->
  not_negative (SFadd prec emax x y).
Proof.
  unfold not_negative. intros Hx Hy.
  destruct x as [sx|sx| |sx mx ex], y as [sy|sy| |sy my ey];
    try destruct sx; try destruct sy;
    unfold SFleb, SFltb in *; cbn [SFcompare SFadd] in *;
    try discriminate; try reflexivity.
  apply binary_normalize_not_negative. cbn [cond_Zopp]. lia.
Qed.
End Sub.

(** The four facts about binary64 the methods rely on. *)
Lemma ltb_leb (x y : f64) : (x <? y)%float = true -> (y <=? x)%float = false.
Proof. rewrite ltb_spec, leb_spec. apply SFltb_SFleb. Qed.

Lemma leb_ltb (x y : f64) : (x <=? y)%float = true -> (y <? x)%float = false.
Proof. rewrite ltb_spec, leb_spec. apply SFleb_SFltb. Qed.

Lemma add_not_negative (b x : f64) :
  (b <? 0)%float = false -> (x <=? 0)%float = false -> (b + x <? 0)%float = false.
Proof.
  rewrite !ltb_spec, leb_spec, add_spec, Prim2SF_zero. apply SFadd_not_negative.
Qed.


Lemma sub_not_negative (b x : f64) :
  (x <=? 0)%float = false -> (b <? x)%float = false -> (b - x <? 0)%float = false.
Proof.
  rewrite !ltb_spec, leb_spec, sub_spec, Prim2SF_zero.
  apply SFsub_not_negative; [reflexivity|apply Prim2SF_valid..].
Qed.

(** ** Running the monad *)

Lemma run_bind {A B} (c : M A) (k : A -> M B) (w : World) :
  (c ≫= k) w = match c w with
               | (Returned a, w') => k a w'
               | (Raised e, w') => (Raised e, w')
               end.
Proof. reflexivity. Qed.

Lemma run_bind_returned {A B} (c : M A) (k : A -> M B) (w w' : World) (a : A) :
  c w = (Returned a, w') -> (c ≫= k) w = k a w'.
Proof. intros H. rewrite run_bind, H. reflexivity. Qed.

Lemma run_bind_raised {A B} (c : M A) (k : A -> M B) (w w' : World) (e : exn) :
  c w = (Raised e, w') -> (c ≫= k) w = (Raised e, w').
Proof. intros H. rewrite run_bind, H. reflexivity. Qed.

Create HintDb bank_defs.
#[local] Hint Unfold
  User_init add_account Account_init deposit withdraw add_transaction get_balance
  Transaction_init set_status validate save_user save_account save_transaction
  get_user login notify list_accounts attr_owner attr_account_id
  read_tx read_account read_user write_tx write_account write_user
  new_user new_account new_tx deref not_none gets modify ret raise try_except
  process transfer_rest float of_result
  : bank_defs.

(** Unfolds the methods down to matches on the heap lookups. *)
Ltac munfold := autounfold with bank_defs; unfold mbind, M_bind, bind.

Lemma lookup_new {A} (h : list A) (x : A) : (h ++ [x]) !! length h = Some x.
Proof. apply list_lookup_middle. reflexivity. Qed.

Lemma lookup_old {A} (h : list A) (x y : A) (r : ref) :
  h !! r = Some y -> (h ++ [x]) !! r = Some y.
Proof. intros H. apply lookup_app_l_Some. exact H. Qed.

(** The side condition of a lookup after a write: the object is allocated. *)
Ltac allocated :=
  repeat match goal with
  | H : _ !! _ = Some _ |- _ => apply lookup_lt_Some in H
  end;
  rewrite ?length_insert, ?length_app in *; cbn [length] in *; lia.

(** One lookup or comparison whose outcome is a hypothesis. *)
Ltac known :=
  first
    [ rewrite list_lookup_insert_eq by allocated
    | rewrite list_lookup_insert_ne by congruence
    | rewrite lookup_new
    | match goal with H : ?h !! ?r = Some ?y |- context [(?h ++ [?x]) !! ?r] =>
        rewrite (lookup_old h x y r H) end
    | match goal with H : ?x = Some _ |- context [?x] => rewrite H end
    | match goal with H : ?x = None |- context [?x] => rewrite H end
    | match goal with H : ?x = true |- context [?x] => rewrite H end
    | match goal with H : ?x = false |- context [?x] => rewrite H end ].

(** Symbolic execution of a method on a world described by hypotheses. *)
Ltac mrun := munfold; cbn; repeat (known; cbn).

(** What the outcome of [amount > 0] and of [balance >= amount] says about
    the tests of [withdraw] and [deposit]. *)
Ltac float_facts :=
  repeat match goal with
  | H : (PrimFloat.ltb ?x ?y) = true |- _ =>
      lazymatch goal with
      | _ : (PrimFloat.leb y x) = false |- _ => fail
      | _ => pose proof (ltb_leb x y H)
      end
  | H : (PrimFloat.leb ?x ?y) = true |- _ =>
      lazymatch goal with
      | _ : (PrimFloat.ltb y x) = false |- _ => fail
      | _ => pose proof (leb_ltb x y H)
      end
  end.

(** ** Frame properties: what a call leaves alone *)

Section Preserves.
Context (I : World -> Prop).

Lemma preserves_ret {A} (a : A) : preserves I (ret a).
Proof. intros w H. exact H. Qed.

Lemma preserves_raise {A} (e : exn) : preserves I (@raise A e).
Proof. intros w H. exact H. Qed.

Lemma preserves_gets {A} (f : World -> A) : preserves I (gets f).
Proof. intros w H. exact H. Qed.

Lemma preserves_not_none {A} (o : option A) : preserves I (not_none o).
Proof. intros w H. destruct o; exact H. Qed.

Lemma preserves_deref {A} (heap : World -> list A) (r : ref) :
  preserves I (deref heap r).
Proof. intros w H. unfold deref. destruct (heap w !! r); exact H. Qed.

Lemma preserves_bind {A B} (c : M A) (k : A -> M B) :
  preserves I c -> (forall a, preserves I (k a)) -> preserves I (c ≫= k).
Proof.
  intros Hc Hk w H. rewrite run_bind. specialize (Hc w H).
  destruct (c w) as [[a|e] w']; cbn in *.
  - apply Hk, Hc.
  - exact Hc.
Qed.

Lemma preserves_try {A} (c : M A) (h : exn -> M A) :
  preserves I c -> (forall e, preserves I (h e)) -> preserves I (try_except c h).
Proof.
  intros Hc Hh w H. unfold try_except. specialize (Hc w H).
  destruct (c w) as [[a|e] w']; cbn in *.
  - exact Hc.
  - apply Hh, Hc.
Qed.

Lemma preserves_if {A} (b : bool) (c1 c2 : M A) :
  preserves I c1 -> preserves I c2 -> preserves I (if b then c1 else c2).
Proof. destruct b; auto. Qed.

Lemma preserves_modify (f : World -> World) :
  (forall w, I w -> I (f w)) -> preserves I (modify f).
Proof. intros Hf w H. apply Hf, H. Qed.
End Preserves.


(** The calls of [process] and [transfer], for an invariant that does not
    depend on the users, the database or the output, and that the four
    writes of [process] maintain. *)
Section Frame.
Context (I : World -> Prop).
Hypothesis I_users : forall w h, I w -> I (set_users_heap h w).
Hypothesis I_db : forall w d, I w -> I (set_db d w).
Hypothesis I_stdout : forall w o, I w -> I (set_stdout o w).
Hypothesis I_status : forall w r t s,
  s <> PENDING -> txs_heap w !! r = Some t -> I w ->
  I (set_txs_heap (<[r := mkTransaction (tx_id t) (source t) (destination t) (amount t) s]>
                     (txs_heap w)) w).
Hypothesis I_history : forall w r a tx,
  accounts_heap w !! r = Some a -> I w ->
  I (set_accounts_heap
       (<[r := mkAccount (account_id a) (owner a) (balance a) (_transactions a ++ [tx])]>
          (accounts_heap w)) w).
Hypothesis I_deposit : forall w r a x,
  accounts_heap w !! r = Some a -> (x <=? 0)%float = false -> I w ->
  I (set_accounts_heap
       (<[r := mkAccount (account_id a) (owner a) (balance a + x) (_transactions a)]>
          (accounts_heap w)) w).
Hypothesis I_withdraw : forall w r a x,
  accounts_heap w !! r = Some a -> (x <=? 0)%float = false ->
  (balance a <? x)%float = false -> I w ->
  I (set_accounts_heap
       (<[r := mkAccount (account_id a) (owner a) (balance a - x) (_transactions a)]>
          (accounts_heap w)) w).

(** A method body made of reads, tests and at most one write. *)
Ltac by_cases :=
  intros w H; munfold; cbn;
  repeat (case_match; simplify_eq/=);
  eauto.

Lemma preserves_add_account u a : preserves I (add_account u a).
Proof. by_cases. Qed.

Lemma preserves_deposit r x : preserves I (deposit r x).
Proof. by_cases. Qed.

Lemma preserves_withdraw r x : preserves I (withdraw r x).
Proof. by_cases. Qed.

Lemma preserves_add_transaction r tx : preserves I (add_transaction r tx).
Proof. by_cases. Qed.

Lemma preserves_get_balance r : preserves I (get_balance r).
Proof. by_cases. Qed.

Lemma preserves_set_status r s : s <> PENDING -> preserves I (set_status r s).
Proof. intros Hs. by_cases. Qed.

Lemma preserves_validate r : preserves I (validate r).
Proof. by_cases. Qed.

Lemma preserves_save_user r : preserves I (save_user r).
Proof. by_cases. Qed.

Lemma preserves_save_account r : preserves I (save_account r).
Proof. by_cases. Qed.

Lemma preserves_save_transaction r : preserves I (save_transaction r).
Proof. by_cases. Qed.

Lemma preserves_login i : preserves I (login i).
Proof. by_cases. Qed.

Lemma preserves_list_accounts r : preserves I (list_accounts r).
Proof. by_cases. Qed.

Lemma preserves_notify r m : preserves I (notify r m).
Proof. by_cases. Qed.

Lemma preserves_attr_owner x : preserves I (attr_owner x).
Proof. by_cases. Qed.

Lemma preserves_attr_account_id x : preserves I (attr_account_id x).
Proof. by_cases. Qed.

(** A method body made of calls in sequence. *)
Ltac by_calls :=
  repeat (intros; cbv beta;
    first
      [ apply preserves_ret | apply preserves_raise | apply preserves_gets
      | apply preserves_not_none | apply preserves_deref
      | apply preserves_deposit | apply preserves_withdraw
      | apply preserves_add_transaction | apply preserves_get_balance
      | apply preserves_set_status; discriminate | apply preserves_validate
      | apply preserves_save_transaction | apply preserves_notify
      | apply preserves_attr_owner | apply preserves_attr_account_id
      | apply preserves_bind | apply preserves_try | apply preserves_if ]).

Lemma preserves_process r : preserves I (process r).
Proof. unfold process. by_calls. Qed.

Lemma preserves_transfer_rest source dest amount tx :
  preserves I (transfer_rest source dest amount tx).
Proof.
  unfold transfer_rest. apply preserves_bind; [apply preserves_process|].
  by_calls.
Qed.
End Frame.

(** [transfer] constructs the transaction and moves the counter before
    anything can fail. *)
Lemma transfer_unfold (sid did : Z) (x : f64) (w : World) :
  transfer sid did x w =
  transfer_rest (store_accounts (db w) !! sid) (store_accounts (db w) !! did) x
    (length (txs_heap w))
    (set_bank (mkBankingService (_next_tx_id (bank w) + 1))
       (set_txs_heap
          (txs_heap w ++
             [mkTransaction (_next_tx_id (bank w)) (store_accounts (db w) !! sid)
                (store_accounts (db w) !! did) x PENDING]) w)).
Proof. reflexivity. Qed.

(** ** No negative balance *)

Lemma nonneg_write (w : World) (r : ref) (a : Account) :
  nonneg_balances w -> (balance a <? 0)%float = false ->
  nonneg_balances (set_accounts_heap (<[r:=a]> (accounts_heap w)) w).
Proof. intros H Ha. apply Forall_insert; assumption. Qed.

Lemma nonneg_lookup (w : World) (r : ref) (a : Account) :
  nonneg_balances w -> accounts_heap w !! r = Some a -> (balance a <? 0)%float = false.
Proof. intros H Hr. exact (proj1 (Forall_lookup _ _) H r a Hr). Qed.

Lemma nonneg_users w h : nonneg_balances w -> nonneg_balances (set_users_heap h w).
Proof. exact id. Qed.

Lemma nonneg_db w d : nonneg_balances w -> nonneg_balances (set_db d w).
Proof. exact id. Qed.

Lemma nonneg_stdout w o : nonneg_balances w -> nonneg_balances (set_stdout o w).
Proof. exact id. Qed.

Lemma nonneg_status w r (t : Transaction) s :
  txs_heap w !! r = Some t -> nonneg_balances w ->
  nonneg_balances (set_txs_heap (<[r := mkTransaction (tx_id t) (source t) (destination t) (amount t) s]>
                     (txs_heap w)) w).
Proof. intros _. exact id. Qed.

Lemma nonneg_history w r a l :
  accounts_heap w !! r = Some a -> nonneg_balances w ->
  nonneg_balances (set_accounts_heap (<[r := mkAccount (account_id a) (owner a) (balance a) l]>
                          (accounts_heap w)) w).
Proof. intros Hr H. apply nonneg_write; [exact H|]. exact (nonneg_lookup w r a H Hr). Qed.

(** A deposit that passes the test [amount <= 0] adds a positive number or
    NaN: the sum is not negative. *)
Lemma nonneg_deposit w r a x :
  accounts_heap w !! r = Some a -> (x <=? 0)%float = false -> nonneg_balances w ->
  nonneg_balances (set_accounts_heap
       (<[r := mkAccount (account_id a) (owner a) (balance a + x) (_transactions a)]>
          (accounts_heap w)) w).
Proof.
  intros Hr Hx H. apply nonneg_write; [exact H|]. cbn.
  apply add_not_negative; [exact (nonneg_lookup w r a H Hr)|exact Hx].
Qed.

(** A withdrawal that passes both tests subtracts at most the balance, or
    involves NaN: the difference is not negative. *)
Lemma nonneg_withdraw w r a x :
  accounts_heap w !! r = Some a -> (x <=? 0)%float = false ->
  (balance a <? x)%float = false -> nonneg_balances w ->
  nonneg_balances (set_accounts_heap
       (<[r := mkAccount (account_id a) (owner a) (balance a - x) (_transactions a)]>
          (accounts_heap w)) w).
Proof.
  intros Hr Hx Hle H. apply nonneg_write; [exact H|]. cbn.
  apply sub_not_negative; assumption.
Qed.

(** Every call maintains the invariant, provided an account is not created
    with a negative balance. *)
Lemma exec_nonneg (o : Op) (w : World) :
  creates_nonneg o -> nonneg_balances w -> nonneg_balances (exec o w).
Proof.
  pose proof nonneg_users as Hu. pose proof nonneg_db as Hd.
  pose proof nonneg_stdout as Ho.
  pose proof (fun w r t s (_ : s <> PENDING) => nonneg_status w r t s) as Hs.
  pose proof (fun w r a tx => nonneg_history w r a (_transactions a ++ [tx])) as Hh.
  pose proof nonneg_deposit as Hp.
  pose proof nonneg_withdraw as Hw.
  intros Hc H. destruct o; cbn [exec].
  - exact H.
  - apply preserves_add_account; assumption.
  - cbn in Hc. unfold Account_init, of_result. rewrite run_bind.
    destruct (float balance0) as [f|e] eqn:Hf; [|exact H].
    rewrite run_bind. cbn.
    apply (preserves_bind nonneg_balances).
    + apply preserves_add_account; assumption.
    + intros _. apply preserves_ret.
    + apply Forall_app. split; [exact H|].
      constructor; [exact (Hc f eq_refl)|constructor].
  - apply preserves_deposit; assumption.
  - apply preserves_withdraw; assumption.
  - apply preserves_add_transaction; assumption.
  - unfold Transaction_init, of_result. rewrite run_bind.
    destruct (float amount0); exact H.
  - apply preserves_validate; assumption.
  - apply preserves_process; assumption.
  - apply preserves_save_user; assumption.
  - apply preserves_save_account; assumption.
  - apply preserves_save_transaction; assumption.
  - apply preserves_login; assumption.
  - apply preserves_list_accounts; assumption.
  - apply preserves_notify; assumption.
  - rewrite transfer_unfold. apply preserves_transfer_rest; assumption.
Qed.

Lemma run_nonneg (ops : list Op) (w : World) :
  Forall creates_nonneg ops -> nonneg_balances w -> nonneg_balances (run ops w).
Proof.
  revert w. induction ops as [|o ops IH]; intros w Hops H; [exact H|].
  inversion Hops; subst. cbn. apply IH; [assumption|].
  apply exec_nonneg; assumption.
Qed.

(** A withdrawal of more than the balance raises and writes nothing. *)
Lemma withdraw_rejected (w : World) (self : ref) (a : Account) (x : f64) :
  accounts_heap w !! self = Some a -> (balance a <? x)%float = true ->
  exists msg, withdraw self x w = (Raised (ValueError msg), w).
Proof.
  intros Hr Hlt. unfold withdraw.
  destruct (x <=? 0)%float eqn:Hx; [eexists; reflexivity|].
  mrun. eexists; reflexivity.
Qed.

(** C1, as stated, fails, in two ways.  [Account.__init__] accepts a
    negative balance, and a later deposit commits on top of it: after
    [alice = User(1, "Alice"); a = Account(7, alice, -5.0); a.deposit(1.0)]
    the balance of [a] is [-4.0].  And NaN passes the test [amount <= 0]:
    after [b = Account(8, alice, 0.0); b.deposit(float("nan"))] the balance
    of [b] is NaN, which is not [>= 0]. *)
Lemma C1_counterexample :
  let w := run [OpUser 1 "Alice"; OpAccount 7 0%nat (PyFloat (-5)); OpDeposit 0%nat 1;
                OpAccount 8 0%nat (PyFloat 0); OpDeposit 1%nat nan] empty_world in
  (balance <$> accounts_heap w) = [(-4)%float; nan] /\
  ~ nonneg_balances w /\
  (0 <=? nan)%float = false.
Proof.
  split; [reflexivity|]. split; [|reflexivity].
  intros H. apply Forall_cons in H as [H _]. vm_compute in H. discriminate H.
Qed.

(** C1 (amended): when no account is created with a negative balance, then
    after every call of every sequence of calls at the public interface
    (constructors, deposit, withdraw, process, transfer and the rest) no
    account has a negative balance: [balance < 0] is false for each, the
    balance being a number [>= 0] or NaN.  And a withdrawal of more than
    the balance raises [ValueError] and leaves the world as it was. *)
Theorem balance_never_negative (ops : list Op) (w : World) :
  nonneg_balances w ->
  Forall creates_nonneg ops ->
  (forall n, nonneg_balances (run (take n ops) w)) /\
  (forall w0 self a x,
      accounts_heap w0 !! self = Some a -> (balance a <? x)%float = true ->
      exists msg, withdraw self x w0 = (Raised (ValueError msg), w0)).
Proof.
  intros H Hops. split.
  - intros n. apply run_nonneg; [|exact H]. apply Forall_take, Hops.
  - apply withdraw_rejected.
Qed.

Lemma balance_never_negative_witness :
  let ops := [OpUser 1 "Alice"; OpUser 2 "Bob";
              OpAccount 101 0%nat (PyFloat 500); OpAccount 201 1%nat (PyInt 300);
              OpSaveAccount 0%nat; OpSaveAccount 1%nat;
              OpTransfer 101 201 120; OpTransfer 201 101 1000;
              OpWithdraw 0%nat 1000; OpDeposit 1%nat nan; OpWithdraw 0%nat infinity;
              OpTransaction 9 (Some 1%nat) None (PyFloat 50); OpProcess 2%nat] in
  (forall n, nonneg_balances (run (take n ops) empty_world)) /\
  (forall w0 self a x,
      accounts_heap w0 !! self = Some a -> (balance a <? x)%float = true ->
      exists msg, withdraw self x w0 = (Raised (ValueError msg), w0)).
Proof.
  intros ops. apply (balance_never_negative ops empty_world).
  - constructor.
  - repeat constructor; intros f [= <-]; reflexivity.
Defined.

(** ** Account creation *)

(** C9, as stated, fails for an [int] balance: [float(balance)] rounds
    [2**53 + 1] to [2**53], so the account does not hold the balance it was
    given, and raises [OverflowError] for [10**400], so the constructor
    does not succeed. *)
Lemma C9_counterexample :
  let w := snd (User_init 1 "Alice" empty_world) in
  (exists q,
      (balance <$> accounts_heap (snd (Account_init 7 0%nat (PyInt (2 ^ 53 + 1)) w)))
      = [9007199254740992%float] /\
      value 9007199254740992%float = Some q /\ ~ (q == inject_Z (2 ^ 53 + 1))%Q) /\
  Account_init 8 0%nat (PyInt (10 ^ 400)) w = (Raised OverflowError, w).
Proof.
  split; [|vm_compute; reflexivity].
  eexists. split; [vm_compute; reflexivity|]. split; [vm_compute; reflexivity|].
  vm_compute. discriminate.
Qed.

(** C9 (amended): [Account.__init__] checks nothing about the balance it
    gets: whenever [float(balance)] returns, the constructor returns a new
    account whose balance is that number, and when it is negative the world
    has an account with a negative balance.  Every [float] is accepted as it
    is, negative numbers, infinities and NaN included; an [int] is rounded
    to the nearest binary64 number, and the only failure is the
    [OverflowError] of [float] on an [int] out of range, which leaves the
    world as it was. *)
Theorem Account_init_no_validation (w : World) (i : Z) (o : ref) (u : User) (b : number) :
  users_heap w !! o = Some u ->
  (forall f, float (PyFloat f) = Returned f) /\
  (forall f, float b = Returned f ->
     exists w',
       Account_init i o b w = (Returned (length (accounts_heap w)), w') /\
       accounts_heap w' = accounts_heap w ++ [mkAccount i o f []] /\
       accounts_heap w' !! length (accounts_heap w) = Some (mkAccount i o f []) /\
       ((f <? 0)%float = true -> ~ nonneg_balances w')) /\
  (forall e, float b = Raised e ->
     e = OverflowError /\ Account_init i o b w = (Raised e, w)).
Proof.
  intros Hu. split; [reflexivity|]. split.
  - intros f Hf. eexists. split.
    { unfold Account_init, of_result. rewrite run_bind, Hf. mrun. reflexivity. }
    cbn. split; [reflexivity|]. split; [apply lookup_new|].
    intros Hb H. apply Forall_app in H as [_ H]. apply Forall_cons in H as [H _].
    cbn in H. congruence.
  - intros e He. split.
    + destruct b as [z|f]; cbn in He; [|discriminate].
      destruct (round_int z); congruence.
    + unfold Account_init, of_result. rewrite run_bind, He. reflexivity.
Qed.

Lemma Account_init_no_validation_witness :
  let w := snd (User_init 1 "Alice" empty_world) in
  (forall f, float (PyFloat f) = Returned f) /\
  (forall f, float (PyFloat (-5)) = Returned f ->
     exists w',
       Account_init 7 0%nat (PyFloat (-5)) w = (Returned 0%nat, w') /\
       accounts_heap w' = [] ++ [mkAccount 7 0%nat f []] /\
       accounts_heap w' !! 0%nat = Some (mkAccount 7 0%nat f []) /\
       ((f <? 0)%float = true -> ~ nonneg_balances w')) /\
  (forall e, float (PyFloat (-5)) = Raised e ->
     e = OverflowError /\ Account_init 7 0%nat (PyFloat (-5)) w = (Raised e, w)).
Proof.
  intros w.
  apply (Account_init_no_validation w 7 0%nat (mkUser 1 "Alice" []) (PyFloat (-5))).
  reflexivity.
Defined.

(** ** Validation *)

Lemma validate_run (w : World) (self : ref) (t : Transaction) (s : ref) (a : Account) :
  txs_heap w !! self = Some t -> source t = Some s -> accounts_heap w !! s = Some a ->
  validate self w =
  (Returned ((0 <? amount t)%float && (amount t <=? balance a)%float), w).
Proof.
  intros Ht Hs Ha. destruct (0 <? amount t)%float eqn:E; mrun; reflexivity.
Qed.

Lemma validate_pure (w : World) (self : ref) : snd (validate self w) = w.
Proof. munfold. cbn. repeat (case_match; simplify_eq/=); reflexivity. Qed.

(** C7: [validate()] returns true exactly when [amount > 0] and the balance
    of the source is at least [amount]; it changes nothing (no balance, no
    history, no status), so a second call gives the same answer. *)
Theorem validate_spec (w : World) (self : ref) :
  snd (validate self w) = w /\
  validate self (snd (validate self w)) = validate self w /\
  (forall t s a,
      txs_heap w !! self = Some t -> source t = Some s -> accounts_heap w !! s = Some a ->
      exists b, validate self w = (Returned b, w) /\
                (b = true <->
                 (0 <? amount t)%float = true /\ (amount t <=? balance a)%float = true)).
Proof.
  split; [apply validate_pure|]. split; [rewrite validate_pure; reflexivity|].
  intros t s a Ht Hs Ha. eexists. split; [apply (validate_run w self t s a Ht Hs Ha)|].
  apply andb_true_iff.
Qed.

(** ** Processing a transaction *)

(** C3, as stated, fails: the two balances are binary64 numbers and the
    deposit is rounded.  A transfer of [1.0] from a balance of [1.0] to a
    balance of [2**53] completes; the source goes to [0.0] and the
    destination stays at [2**53], since [2**53 + 1] is not a binary64
    number: the destination did not increase and one unit is gone. *)
Lemma C3_counterexample :
  let w0 := run [OpUser 1 "Alice"; OpAccount 1 0%nat (PyFloat 1);
                 OpAccount 2 0%nat (PyFloat 9007199254740992);
                 OpTransaction 1 (Some 0%nat) (Some 1%nat) (PyFloat 1)] empty_world in
  let w1 := snd (process 0%nat w0) in
  (balance <$> accounts_heap w0) = [1%float; 9007199254740992%float] /\
  (status <$> txs_heap w1) = [COMPLETED] /\
  (balance <$> accounts_heap w1) = [0%float; 9007199254740992%float].
Proof. vm_compute. repeat split. Qed.

(** C3 (amended): when [process()] leaves a transaction with [amount > 0]
    between two distinct existing accounts in status COMPLETED, the source
    balance is the binary64 difference [balance - amount] and the
    destination balance the binary64 sum [balance + amount], each rounded
    to the nearest number; when neither operation rounds, the two balances
    add up to what they added up to before. *)
Theorem process_completed_conserves (w w' : World) (self : ref) (t : Transaction)
    (s d : ref) (sa da : Account) (r : result bool) :
  txs_heap w !! self = Some t ->
  source t = Some s -> destination t = Some d -> s <> d ->
  accounts_heap w !! s = Some sa -> accounts_heap w !! d = Some da ->
  (0 <? amount t)%float = true ->
  process self w = (r, w') ->
  (exists t', txs_heap w' !! self = Some t' /\ status t' = COMPLETED) ->
  exists sa' da',
    accounts_heap w' !! s = Some sa' /\ accounts_heap w' !! d = Some da' /\
    balance sa' = (balance sa - amount t)%float /\
    balance da' = (balance da + amount t)%float /\
    (exact_sub (balance sa) (amount t) -> exact_add (balance da) (amount t) ->
     same_sum (balance sa') (balance da') (balance sa) (balance da)).
Proof.
  intros Ht Hs Hd Hne Hsa Hda Hpos Hrun (t' & Ht' & Hst).
  destruct (amount t <=? balance sa)%float eqn:E2; float_facts;
    revert Hrun; mrun; intros [= <- <-].
  - cbn. eexists _, _. repeat known.
    split; [reflexivity|]. split; [reflexivity|]. cbn.
    split; [reflexivity|]. split; [reflexivity|].
    intros (vs & vx & vs' & Hvs & Hvx & Hvs' & Es) (vd & vx' & vd' & Hvd & Hvx' & Hvd' & Ed).
    assert (vx' = vx) as -> by congruence.
    exists vs', vd', vs, vd. repeat (split; [assumption|]). lra.
  - cbn in Ht'. rewrite list_lookup_insert_eq in Ht' by allocated.
    injection Ht' as <-. discriminate Hst.
Qed.

Lemma process_completed_conserves_witness :
  let w := snd (Transaction_init 1 (Some 0%nat) (Some 2%nat) (PyFloat 120) seeded) in
  exists sa' da',
    accounts_heap (snd (process 0%nat w)) !! 0%nat = Some sa' /\
    accounts_heap (snd (process 0%nat w)) !! 2%nat = Some da' /\
    balance sa' = (500 - 120)%float /\
    balance da' = (300 + 120)%float /\
    (exact_sub 500 120 -> exact_add 300 120 ->
     same_sum (balance sa') (balance da') 500 300).
Proof.
  intros w.
  apply (process_completed_conserves w (snd (process 0%nat w)) 0%nat
           (mkTransaction 1 (Some 0%nat) (Some 2%nat) 120 PENDING) 0%nat 2%nat
           (mkAccount 101 0%nat 500 []) (mkAccount 201 1%nat 300 [])
           (fst (process 0%nat w))).
  - reflexivity.
  - reflexivity.
  - reflexivity.
  - lia.
  - reflexivity.
  - reflexivity.
  - reflexivity.
  - vm_compute. reflexivity.
  - eexists. split; vm_compute; reflexivity.
Defined.

(** The two operations of the transfer of [main.py] do not round. *)
Lemma scenario_A_exact : exact_sub 500 120 /\ exact_add 300 120.
Proof.
  split; eexists _, _, _; (split; [vm_compute; reflexivity|]);
    (split; [vm_compute; reflexivity|]); (split; [vm_compute; reflexivity|]);
    vm_compute; reflexivity.
Qed.

(** A transaction that fails between two existing accounts writes no
    balance: only the status changes. *)
Lemma process_failed_unchanged (w w' : World) (self : ref) (t : Transaction)
    (s d : ref) (sa da : Account) (r : result bool) :
  txs_heap w !! self = Some t ->
  source t = Some s -> destination t = Some d ->
  accounts_heap w !! s = Some sa -> accounts_heap w !! d = Some da ->
  process self w = (r, w') ->
  (exists t', txs_heap w' !! self = Some t' /\ status t' = FAILED) ->
  accounts_heap w' = accounts_heap w.
Proof.
  intros Ht Hs Hd Hsa Hda Hrun (t' & Ht' & Hst).
  destruct (decide (s = d)) as [->|Hne]; [assert (da = sa) as -> by congruence|];
    (destruct (0 <? amount t)%float eqn:E1;
      [destruct (amount t <=? balance sa)%float eqn:E2|]);
    float_facts;
    revert Hrun; mrun; intros [= <- <-]; try reflexivity;
    cbn in Ht'; rewrite list_lookup_insert_eq in Ht' by allocated;
    injection Ht' as <-; discriminate Hst.
Qed.

(** C2 at the failing input.  With the accounts of [main.py],
    [transfer(101, 999, 50.0)] names a destination that is not in the
    database: [process()] withdraws 50 from account 101, the deposit on
    [None] raises inside the [try], and the transaction ends FAILED with the
    source balance at 450 instead of 500. *)
Theorem failed_process_keeps_withdrawal :
  let r := transfer 101 999 50 seeded in
  fst r = Returned 0%nat /\
  txs_heap (snd r) = [mkTransaction 1 (Some 0%nat) None 50 FAILED] /\
  (balance <$> accounts_heap seeded) = [500%float; 150%float; 300%float] /\
  (balance <$> accounts_heap (snd r)) = [450%float; 150%float; 300%float].
Proof. vm_compute. repeat split. Qed.

(** C5 at the failing input.  [transfer(101, 999, 50.0)] raises nothing
    although 999 is not an account: the transaction is constructed with
    [None] as destination and takes id 1, it is saved in the database, and
    the balance of account 101 changes. *)
Theorem transfer_unknown_destination :
  let r := transfer 101 999 50 seeded in
  store_accounts (db seeded) !! 999 = None /\
  fst r = Returned 0%nat /\
  txs_heap (snd r) !! 0%nat = Some (mkTransaction 1 (Some 0%nat) None 50 FAILED) /\
  store_transactions (db (snd r)) !! 1 = Some 0%nat /\
  (balance <$> accounts_heap (snd r)) <> (balance <$> accounts_heap seeded).
Proof. vm_compute. repeat split. discriminate. Qed.

(** With an unknown source, [transfer(999, 201, 50.0)] does raise, but an
    [AttributeError] out of [validate()], after the transaction was
    constructed and the counter moved; nothing is saved and no balance
    changes. *)
Lemma transfer_unknown_source :
  let r := transfer 999 201 50 seeded in
  fst r = Raised AttributeError /\
  txs_heap (snd r) = [mkTransaction 1 None (Some 2%nat) 50 PENDING] /\
  _next_tx_id (bank (snd r)) = 2 /\
  store_transactions (db (snd r)) !! 1 = None /\
  accounts_heap (snd r) = accounts_heap seeded.
Proof. vm_compute. repeat split. Qed.







(** ** Transaction ids *)

(** The ids of all the transactions constructed so far. *)
Lemma tx_ids_status (h : list Transaction) (r : ref) (t : Transaction) (s : Status) :
  h !! r = Some t ->
  tx_id <$> <[r := mkTransaction (tx_id t) (source t) (destination t) (amount t) s]> h
  = tx_id <$> h.
Proof.
  intros Hr. rewrite list_fmap_insert. apply list_insert_id.
  rewrite list_lookup_fmap, Hr. reflexivity.
Qed.

(** One [transfer] constructs one transaction, gives it the counter's value
    and moves the counter by one, whatever happens next. *)
Lemma transfer_ids (sid did : Z) (x : f64) (w : World) :
  (tx_id <$> txs_heap (snd (transfer sid did x w)))
  = (tx_id <$> txs_heap w) ++ [_next_tx_id (bank w)] /\
  _next_tx_id (bank (snd (transfer sid did x w))) = _next_tx_id (bank w) + 1.
Proof.
  rewrite transfer_unfold.
  apply (preserves_transfer_rest
           (fun w' => (tx_id <$> txs_heap w') = (tx_id <$> txs_heap w) ++ [_next_tx_id (bank w)]
                      /\ _next_tx_id (bank w') = _next_tx_id (bank w) + 1));
    try (intros; assumption).
  - intros w0 r t s _ Hr [H1 H2]. split; [|exact H2]. cbn.
    rewrite tx_ids_status by exact Hr. exact H1.
  - cbn. split; [|reflexivity]. rewrite fmap_app. reflexivity.
Qed.

Lemma transfers_ids (calls : list (Z * Z * f64)) (w : World) :
  (tx_id <$> txs_heap (transfers calls w))
  = (tx_id <$> txs_heap w) ++ seqZ (_next_tx_id (bank w)) (Z.of_nat (length calls)) /\
  _next_tx_id (bank (transfers calls w)) = _next_tx_id (bank w) + Z.of_nat (length calls).
Proof.
  revert w. induction calls as [|[[sid did] x] calls IH]; intros w.
  - cbn. rewrite seqZ_nil by lia. rewrite app_nil_r. split; [reflexivity|lia].
  - cbn [transfers foldl fst snd length].
    destruct (transfer_ids sid did x w) as [H1 H2].
    destruct (IH (snd (transfer sid did x w))) as [IH1 IH2].
    unfold transfers in *. rewrite IH1, IH2, H1, H2. split; [|lia].
    rewrite <- app_assoc. f_equal.
    rewrite (seqZ_cons (_next_tx_id (bank w))) by lia. cbn [app]. do 2 f_equal; lia.
Qed.

Lemma seqZ_increasing (m : Z) (n : nat) : StronglySorted Z.lt (seqZ m (Z.of_nat n)).
Proof.
  revert m. induction n as [|n IH]; intros m.
  - rewrite seqZ_nil by lia. constructor.
  - rewrite seqZ_cons by lia. replace (Z.pred (Z.of_nat (S n))) with (Z.of_nat n) by lia.
    constructor; [apply IH|]. apply Forall_seqZ. lia.
Qed.

(** C6: on an orchestrator whose counter is at its initial value 1, the
    transactions constructed by a sequence of [transfer] calls get the ids
    1, 2, 3, ... in call order, one per call whatever the outcome of the
    call: the ids are pairwise distinct and strictly increasing, the first
    one is 1, and the counter ends one above the last. *)
Theorem transfer_ids_unique_increasing (calls : list (Z * Z * f64)) (w : World) :
  bank w = BankingService_init ->
  let ids := tx_ids_from (length (txs_heap w)) (transfers calls w) in
  ids = seqZ 1 (Z.of_nat (length calls)) /\
  length ids = length calls /\
  NoDup ids /\
  StronglySorted Z.lt ids /\
  (calls <> [] -> head ids = Some 1) /\
  _next_tx_id (bank (transfers calls w)) = 1 + Z.of_nat (length calls).
Proof.
  intros Hb ids.
  destruct (transfers_ids calls w) as [H1 H2]. rewrite Hb in H1, H2. cbn in H1, H2.
  assert (ids = seqZ 1 (Z.of_nat (length calls))) as ->.
  { unfold ids, tx_ids_from. rewrite fmap_drop, H1.
    apply drop_app_length'. rewrite length_fmap. reflexivity. }
  split; [reflexivity|]. split; [rewrite length_seqZ; lia|].
  split; [apply NoDup_seqZ|]. split; [apply seqZ_increasing|].
  split; [|exact H2].
  intros Hne. destruct calls; [congruence|]. rewrite seqZ_cons by (cbn; lia). reflexivity.
Qed.

Lemma transfer_ids_unique_increasing_witness :
  let calls := [(101, 201, 120%float); (102, 201, 500%float); (101, 999, 50%float);
                (999, 201, 50%float)] in
  let ids := tx_ids_from 0 (transfers calls seeded) in
  ids = seqZ 1 4 /\
  length ids = 4%nat /\
  NoDup ids /\
  StronglySorted Z.lt ids /\
  (calls <> [] -> head ids = Some 1) /\
  _next_tx_id (bank (transfers calls seeded)) = 1 + 4.
Proof.
  intros calls. apply (transfer_ids_unique_increasing calls seeded). reflexivity.
Defined.

(** ** Transfers *)

(** The six ways a [transfer] between two accounts of the database can go:
    the same account or two accounts; an amount that is not positive, an
    amount the source cannot pay, or an amount it can pay. *)
Ltac transfer_cases s d sa da su du x :=
  destruct (decide (s = d)) as [->|?];
    [assert (da = sa) as -> by congruence; assert (du = su) as -> by congruence|];
    (destruct (0 <? x)%float eqn:?; [destruct (x <=? balance sa)%float eqn:?|]);
    float_facts.

(** C10, as stated, fails: the balance ends at [(b - a) + a] computed in
    binary64, which need not be [b].  With [b = 9007199254740994.0] and
    [a = 1.0], [b - a] rounds to [9007199254740992.0] and adding [a] back
    rounds to the same number: the transfer completes and the balance is 2
    lower. *)
Lemma C10_counterexample :
  let w0 := run [OpUser 1 "Alice"; OpAccount 5 0%nat (PyFloat 9007199254740994);
                 OpSaveAccount 0%nat] empty_world in
  let w1 := snd (transfer 5 5 1 w0) in
  (0 <? 1)%float = true /\ (1 <=? 9007199254740994)%float = true /\
  (balance <$> accounts_heap w0) = [9007199254740994%float] /\
  (status <$> txs_heap w1) = [COMPLETED] /\
  (balance <$> accounts_heap w1) = [9007199254740992%float].
Proof. vm_compute. repeat split. Qed.

(** C10 (amended): a transfer from an account to itself, with
    [0 < a <= b], returns a COMPLETED transaction, leaves the balance at
    the binary64 number [(b - a) + a], which is [b] when neither operation
    rounds, and appends the transaction twice to the history of the
    account. *)
Theorem self_transfer (w : World) (i : Z) (r : ref) (A : Account) (u : User) (x : f64) :
  store_accounts (db w) !! i = Some r ->
  accounts_heap w !! r = Some A ->
  users_heap w !! owner A = Some u ->
  (0 <? x)%float = true -> (x <=? balance A)%float = true ->
  exists w' t' A',
    transfer i i x w = (Returned (length (txs_heap w)), w') /\
    txs_heap w' !! length (txs_heap w) = Some t' /\
    status t' = COMPLETED /\
    accounts_heap w' !! r = Some A' /\
    balance A' = ((balance A - x) + x)%float /\
    (exact_sub (balance A) x -> exact_add (balance A - x) x ->
     same_value (balance A') (balance A)) /\
    _transactions A' = _transactions A ++ [length (txs_heap w); length (txs_heap w)].
Proof.
  intros Hi Hr Hu Hpos Hle. float_facts.
  rewrite transfer_unfold, Hi. eexists _, _, _.
  split; [mrun; reflexivity|]. cbn. repeat known.
  split; [reflexivity|]. split; [reflexivity|]. split; [reflexivity|]. cbn.
  split; [reflexivity|]. split; [|rewrite <- app_assoc; reflexivity].
  intros (vb & vx & vd & Hvb & Hvx & Hvd & Ed) (vd' & vx' & vr & Hvd' & Hvx' & Hvr & Er).
  assert (vx' = vx) as -> by congruence. assert (vd' = vd) as -> by congruence.
  exists vr, vb. split; [assumption|]. split; [assumption|]. lra.
Qed.

Lemma self_transfer_witness :
  exists w' t' A',
    transfer 101 101 50 seeded = (Returned 0%nat, w') /\
    txs_heap w' !! 0%nat = Some t' /\
    status t' = COMPLETED /\
    accounts_heap w' !! 0%nat = Some A' /\
    balance A' = ((500 - 50) + 50)%float /\
    (exact_sub 500 50 -> exact_add (500 - 50) 50 -> same_value (balance A') 500) /\
    _transactions A' = [] ++ [0%nat; 0%nat].
Proof.
  apply (self_transfer seeded 101 0%nat (mkAccount 101 0%nat 500 [])
           (mkUser 1 "Alice" [0%nat; 1%nat]) 50);
    reflexivity.
Defined.

(** C8: a [transfer] between two accounts of the database prints exactly
    two notifications when the transaction completes, the first to the
    owner of the source and the second to the owner of the destination, and
    exactly one when it fails, to the owner of the source; in that case
    nothing is addressed to a destination owner who is another user. *)
Theorem transfer_notifications (w : World) (sid did : Z) (x : f64)
    (s d : ref) (sa da : Account) (su du : User) :
  store_accounts (db w) !! sid = Some s ->
  store_accounts (db w) !! did = Some d ->
  accounts_heap w !! s = Some sa -> accounts_heap w !! d = Some da ->
  users_heap w !! owner sa = Some su -> users_heap w !! owner da = Some du ->
  exists w' t',
    transfer sid did x w = (Returned (length (txs_heap w)), w') /\
    txs_heap w' !! length (txs_heap w) = Some t' /\
    ((status t' = COMPLETED /\
      stdout w' = stdout w ++
        [mkNotification (owner sa) (name su) (Succeeded x (account_id da));
         mkNotification (owner da) (name du) (Received x (account_id sa))])
     \/
     (status t' = FAILED /\
      stdout w' = stdout w ++ [mkNotification (owner sa) (name su) (TransferFailed x)] /\
      (owner da <> owner sa ->
       Forall (fun n => recipient n <> owner da) (drop (length (stdout w)) (stdout w'))))).
Proof.
  intros Hsid Hdid Hsa Hda Hsu Hdu.
  rewrite transfer_unfold, Hsid, Hdid.
  transfer_cases s d sa da su du x;
    (eexists _, _; split; [mrun; reflexivity|]; cbn; repeat known;
     split; [reflexivity|]; cbn;
     first [ left; split; [reflexivity|]; rewrite <- app_assoc; reflexivity
           | right; split; [reflexivity|]; split; [reflexivity|];
             intros Hown; rewrite drop_app_length; apply Forall_singleton; cbn;
             congruence ]).
Qed.

Lemma transfer_notifications_witness :
  exists w' t',
    transfer 102 201 500 seeded = (Returned 0%nat, w') /\
    txs_heap w' !! 0%nat = Some t' /\
    ((status t' = COMPLETED /\
      stdout w' = [mkNotification 0%nat "Alice" (Succeeded 500 201);
                   mkNotification 1%nat "Bob" (Received 500 102)])
     \/
     (status t' = FAILED /\
      stdout w' = [mkNotification 0%nat "Alice" (TransferFailed 500)] /\
      (1%nat <> 0%nat ->
       Forall (fun n => recipient n <> 1%nat) (drop 0 (stdout w'))))).
Proof.
  apply (transfer_notifications seeded 102 201 500 1%nat 2%nat
           (mkAccount 102 0%nat 150 []) (mkAccount 201 1%nat 300 [])
           (mkUser 1 "Alice" [0%nat; 1%nat]) (mkUser 2 "Bob" [2%nat]));
    reflexivity.
Defined.

Lemma validate_spec_witness :
  let w := snd (Transaction_init 1 (Some 1%nat) (Some 2%nat) (PyFloat 500) seeded) in
  exists b, validate 0%nat w = (Returned b, w) /\
            (b = true <-> (0 <? 500)%float = true /\ (500 <=? 150)%float = true).
Proof.
  intros w.
  apply (proj2 (proj2 (validate_spec w 0%nat))
           (mkTransaction 1 (Some 1%nat) (Some 2%nat) 500 PENDING) 1%nat
           (mkAccount 102 0%nat 150 []));
    reflexivity.
Defined.

(** * Further properties of the methods *)

(** ** The database and the users *)

(** [save_account] files the account under its own [account_id], replacing
    whatever was filed under that id; every other id, the other two dicts
    and all the objects stay as they are. *)
Theorem save_account_lookup (w : World) (r : ref) (a : Account) :
  accounts_heap w !! r = Some a ->
  exists w',
    save_account r w = (Returned tt, w') /\
    store_accounts (db w') !! account_id a = Some r /\
    (forall i, i <> account_id a ->
               store_accounts (db w') !! i = store_accounts (db w) !! i) /\
    store_users (db w') = store_users (db w) /\
    store_transactions (db w') = store_transactions (db w) /\
    accounts_heap w' = accounts_heap w /\ users_heap w' = users_heap w /\
    txs_heap w' = txs_heap w.
Proof.
  intros Ha. eexists. split; [mrun; reflexivity|]. cbn.
  split; [apply lookup_insert_eq|].
  split; [intros i Hi; apply lookup_insert_ne; congruence|].
  repeat split.
Qed.

Lemma save_account_lookup_witness :
  exists w',
    save_account 1%nat seeded = (Returned tt, w') /\
    store_accounts (db w') !! 102 = Some 1%nat /\
    (forall i, i <> 102 ->
               store_accounts (db w') !! i = store_accounts (db seeded) !! i) /\
    store_users (db w') = store_users (db seeded) /\
    store_transactions (db w') = store_transactions (db seeded) /\
    accounts_heap w' = accounts_heap seeded /\ users_heap w' = users_heap seeded /\
    txs_heap w' = txs_heap seeded.
Proof.
  apply (save_account_lookup seeded 1%nat (mkAccount 102 0%nat 150 [])). reflexivity.
Defined.

(** [login] after [save_user]: the id of the saved user logs in as that
    user, every other id logs in as before, and an id that is not in the
    database gives [None] without an exception.  [login] itself writes
    nothing. *)
Theorem login_after_save_user (w : World) (r : ref) (u : User) :
  users_heap w !! r = Some u ->
  exists w',
    save_user r w = (Returned tt, w') /\
    login (user_id u) w' = (Returned (Some r), w') /\
    (forall i, i <> user_id u -> login i w' = (fst (login i w), w')) /\
    (forall i, store_users (db w') !! i = None -> login i w' = (Returned None, w')).
Proof.
  intros Hu. eexists. split; [mrun; reflexivity|].
  split; [|split].
  - munfold. cbn. rewrite lookup_insert_eq. reflexivity.
  - intros i Hi. munfold. cbn. rewrite lookup_insert_ne by congruence. reflexivity.
  - intros i Hi. unfold login, get_user, gets. rewrite run_bind. cbn in *.
    rewrite Hi. reflexivity.
Qed.

Lemma login_after_save_user_witness :
  exists w',
    save_user 1%nat seeded = (Returned tt, w') /\
    login 2 w' = (Returned (Some 1%nat), w') /\
    (forall i, i <> 2 -> login i w' = (fst (login i seeded), w')) /\
    (forall i, store_users (db w') !! i = None -> login i w' = (Returned None, w')).
Proof.
  apply (login_after_save_user seeded 1%nat (mkUser 2 "Bob" [2%nat])). reflexivity.
Defined.

(** [Account.__init__] links the two objects both ways and does not touch
    the database: the new account has the given owner, [list_accounts] of
    the owner returns the accounts it returned before followed by the new
    one, the other users keep their lists, and no id of the database
    resolves to the new account. *)
Theorem Account_init_registers (w : World) (i : Z) (o : ref) (u : User) (b : f64) :
  users_heap w !! o = Some u ->
  exists w' a,
    Account_init i o (PyFloat b) w = (Returned (length (accounts_heap w)), w') /\
    accounts_heap w' !! length (accounts_heap w) = Some a /\ owner a = o /\
    list_accounts o w = (Returned (accounts u), w) /\
    list_accounts o w' = (Returned (accounts u ++ [length (accounts_heap w)]), w') /\
    (forall o', o' <> o -> list_accounts o' w' = (fst (list_accounts o' w), w')) /\
    db w' = db w.
Proof.
  intros Hu. eexists _, _. split; [mrun; reflexivity|]. cbn.
  split; [apply lookup_new|]. split; [reflexivity|].
  split; [mrun; reflexivity|]. split; [mrun; reflexivity|].
  split; [|reflexivity].
  intros o' Ho'. munfold. cbn. rewrite list_lookup_insert_ne by congruence.
  destruct (users_heap w !! o'); reflexivity.
Qed.

Lemma Account_init_registers_witness :
  exists w' a,
    Account_init 103 0%nat (PyFloat 40) seeded = (Returned 3%nat, w') /\
    accounts_heap w' !! 3%nat = Some a /\ owner a = 0%nat /\
    list_accounts 0%nat seeded = (Returned [0%nat; 1%nat], seeded) /\
    list_accounts 0%nat w' = (Returned ([0%nat; 1%nat] ++ [3%nat]), w') /\
    (forall o', o' <> 0%nat -> list_accounts o' w' = (fst (list_accounts o' seeded), w')) /\
    db w' = db seeded.
Proof.
  apply (Account_init_registers seeded 103 0%nat (mkUser 1 "Alice" [0%nat; 1%nat]) 40).
  reflexivity.
Defined.

(** [get_profile] writes nothing and returns a dict with exactly the keys
    [user_id], [name] and [accounts]; after one more [Account.__init__] for
    the user the [accounts] entry is the decimal string of the count plus
    one, a string different from the one before, and the two other entries
    are the same. *)
Theorem get_profile_counts_accounts (w : World) (i : Z) (o : ref) (u : User) (b : f64) :
  users_heap w !! o = Some u ->
  exists m m' w',
    get_profile o w = (Returned m, w) /\
    w' = snd (Account_init i o (PyFloat b) w) /\
    get_profile o w' = (Returned m', w') /\
    dom m = ({["user_id"; "name"; "accounts"]} : gset string) /\
    dom m' = dom m /\
    m !! "accounts" = Some (pretty (length (accounts u))) /\
    m' !! "accounts" = Some (pretty (S (length (accounts u)))) /\
    m' !! "accounts" <> m !! "accounts" /\
    m' !! "user_id" = m !! "user_id" /\ m !! "user_id" = Some (pretty (user_id u)) /\
    m' !! "name" = m !! "name" /\ m !! "name" = Some (name u).
Proof.
  intros Hu. eexists _, _, _. split; [unfold get_profile; mrun; reflexivity|].
  split; [reflexivity|].
  split; [unfold get_profile; mrun; reflexivity|]. cbn.
  rewrite length_app, Nat.add_1_r.
  split; [rewrite !dom_insert_L, dom_empty_L; set_solver|].
  split; [rewrite !dom_insert_L, !dom_empty_L; reflexivity|].
  split; [reflexivity|]. split; [reflexivity|].
  split; [|repeat split].
  intros [= H]. apply (inj pretty) in H. lia.
Qed.

Lemma get_profile_counts_accounts_witness :
  exists m m' w',
    get_profile 0%nat seeded = (Returned m, seeded) /\
    w' = snd (Account_init 103 0%nat (PyFloat 40) seeded) /\
    get_profile 0%nat w' = (Returned m', w') /\
    dom m = ({["user_id"; "name"; "accounts"]} : gset string) /\
    dom m' = dom m /\
    m !! "accounts" = Some (pretty 2%nat) /\
    m' !! "accounts" = Some (pretty 3%nat) /\
    m' !! "accounts" <> m !! "accounts" /\
    m' !! "user_id" = m !! "user_id" /\ m !! "user_id" = Some (pretty 1) /\
    m' !! "name" = m !! "name" /\ m !! "name" = Some "Alice".
Proof.
  apply (get_profile_counts_accounts seeded 103 0%nat (mkUser 1 "Alice" [0%nat; 1%nat]) 40).
  reflexivity.
Defined.

(** ** More on [process] *)

(** When [process()] returns, the transaction is in a terminal status that
    matches the returned boolean (COMPLETED for [True], FAILED for [False]),
    whatever its accounts are, and its id, accounts and amount are
    untouched. *)
Theorem process_returns_terminal (w w' : World) (self : ref) (t : Transaction) (b : bool) :
  txs_heap w !! self = Some t ->
  process self w = (Returned b, w') ->
  exists t',
    txs_heap w' !! self = Some t' /\ same_transaction t t' /\
    status t' = (if b then COMPLETED else FAILED).
Proof.
  intros Ht Hrun. revert Hrun. munfold. cbn. rewrite Ht. cbn.
  repeat (first [known | case_match]; simplify_eq/=);
    intros Hrun; simplify_eq/=;
    (eexists; split; [apply list_lookup_insert_eq; allocated|]);
    repeat split; cbn; congruence.
Qed.

Lemma process_returns_terminal_witness :
  let w := snd (Transaction_init 1 (Some 1%nat) None (PyFloat 500) seeded) in
  exists t',
    txs_heap (snd (process 0%nat w)) !! 0%nat = Some t' /\
    same_transaction (mkTransaction 1 (Some 1%nat) None 500 PENDING) t' /\
    status t' = (if false then COMPLETED else FAILED).
Proof.
  intros w.
  apply (process_returns_terminal w (snd (process 0%nat w)) 0%nat
           (mkTransaction 1 (Some 1%nat) None 500 PENDING) false).
  - reflexivity.
  - vm_compute. reflexivity.
Defined.

(** A transaction without a source: when [amount > 0] the exception of
    [validate()] leaves [process()], outside its [try], and nothing is
    written, the status included; when [amount > 0] is false the source is
    never looked at and the transaction ends FAILED. *)
Theorem process_without_source (w : World) (self : ref) (t : Transaction) :
  txs_heap w !! self = Some t -> source t = None ->
  ((0 <? amount t)%float = true -> process self w = (Raised AttributeError, w)) /\
  ((0 <? amount t)%float = false ->
   process self w =
   (Returned false,
    set_txs_heap
      (<[self := mkTransaction (tx_id t) None (destination t) (amount t) FAILED]>
         (txs_heap w)) w)).
Proof.
  intros Ht Hs. split; intros Hx; mrun; reflexivity.
Qed.

Lemma process_without_source_witness :
  let w := snd (Transaction_init 1 None (Some 2%nat) (PyFloat 50) seeded) in
  ((0 <? 50)%float = true -> process 0%nat w = (Raised AttributeError, w)) /\
  ((0 <? 50)%float = false ->
   process 0%nat w =
   (Returned false,
    set_txs_heap
      (<[0%nat := mkTransaction 1 None (Some 2%nat) 50 FAILED]> (txs_heap w)) w)).
Proof.
  intros w.
  apply (process_without_source w 0%nat (mkTransaction 1 None (Some 2%nat) 50 PENDING));
    reflexivity.
Defined.

(** With both accounts in place, the same one or two different ones,
    [process()] never raises and returns what [validate()] returns on the
    world before the call. *)
Theorem process_agrees_with_validate (w : World) (self : ref) (t : Transaction)
    (s d : ref) (sa da : Account) :
  txs_heap w !! self = Some t ->
  source t = Some s -> destination t = Some d ->
  accounts_heap w !! s = Some sa -> accounts_heap w !! d = Some da ->
  exists b w', validate self w = (Returned b, w) /\ process self w = (Returned b, w').
Proof.
  intros Ht Hs Hd Hsa Hda.
  destruct (decide (s = d)) as [->|Hne]; [assert (da = sa) as -> by congruence|];
    (destruct (0 <? amount t)%float eqn:E1;
      [destruct (amount t <=? balance sa)%float eqn:E2|]);
    float_facts;
    eexists _, _; (split; [mrun; reflexivity|]); mrun; reflexivity.
Qed.

Lemma process_agrees_with_validate_witness :
  let w := snd (Transaction_init 1 (Some 1%nat) (Some 2%nat) (PyFloat 500) seeded) in
  exists b w', validate 0%nat w = (Returned b, w) /\ process 0%nat w = (Returned b, w').
Proof.
  intros w.
  apply (process_agrees_with_validate w 0%nat
           (mkTransaction 1 (Some 1%nat) (Some 2%nat) 500 PENDING) 1%nat 2%nat
           (mkAccount 102 0%nat 150 []) (mkAccount 201 1%nat 300 []));
    reflexivity.
Defined.

(** A completed transaction between two distinct accounts is recorded once
    at the end of the history of each of them; the other accounts, the
    users, the database, the counter and the output are untouched, and the
    transaction only changes its status. *)
Theorem process_completed_records (w : World) (self : ref) (t : Transaction)
    (s d : ref) (sa da : Account) :
  txs_heap w !! self = Some t ->
  source t = Some s -> destination t = Some d -> s <> d ->
  accounts_heap w !! s = Some sa -> accounts_heap w !! d = Some da ->
  (0 <? amount t)%float = true -> (amount t <=? balance sa)%float = true ->
  exists w',
    process self w = (Returned true, w') /\
    accounts_heap w' !! s =
      Some (mkAccount (account_id sa) (owner sa) (balance sa - amount t)
              (_transactions sa ++ [self])) /\
    accounts_heap w' !! d =
      Some (mkAccount (account_id da) (owner da) (balance da + amount t)
              (_transactions da ++ [self])) /\
    (forall r, r <> s -> r <> d -> accounts_heap w' !! r = accounts_heap w !! r) /\
    length (accounts_heap w') = length (accounts_heap w) /\
    txs_heap w' =
      <[self := mkTransaction (tx_id t) (source t) (destination t) (amount t) COMPLETED]>
        (txs_heap w) /\
    users_heap w' = users_heap w /\ db w' = db w /\ bank w' = bank w /\
    stdout w' = stdout w.
Proof.
  intros Ht Hs Hd Hne Hsa Hda Hpos Hle. float_facts.
  eexists. split; [mrun; reflexivity|]. cbn. repeat known.
  split; [reflexivity|]. split; [reflexivity|].
  split; [intros r Hrs Hrd; rewrite !list_lookup_insert_ne by congruence; reflexivity|].
  split; [rewrite !length_insert; reflexivity|].
  repeat split.
Qed.

Lemma process_completed_records_witness :
  let w := snd (Transaction_init 1 (Some 0%nat) (Some 2%nat) (PyFloat 120) seeded) in
  exists w',
    process 0%nat w = (Returned true, w') /\
    accounts_heap w' !! 0%nat = Some (mkAccount 101 0%nat (500 - 120) ([] ++ [0%nat])) /\
    accounts_heap w' !! 2%nat = Some (mkAccount 201 1%nat (300 + 120) ([] ++ [0%nat])) /\
    (forall r, r <> 0%nat -> r <> 2%nat -> accounts_heap w' !! r = accounts_heap w !! r) /\
    length (accounts_heap w') = length (accounts_heap w) /\
    txs_heap w' =
      <[0%nat := mkTransaction 1 (Some 0%nat) (Some 2%nat) 120 COMPLETED]> (txs_heap w) /\
    users_heap w' = users_heap w /\ db w' = db w /\ bank w' = bank w /\
    stdout w' = stdout w.
Proof.
  intros w.
  apply (process_completed_records w 0%nat
           (mkTransaction 1 (Some 0%nat) (Some 2%nat) 120 PENDING) 0%nat 2%nat
           (mkAccount 101 0%nat 500 []) (mkAccount 201 1%nat 300 []));
    first [reflexivity | lia].
Defined.

Lemma process_failed_unchanged_witness :
  let w := snd (Transaction_init 1 (Some 1%nat) (Some 2%nat) (PyFloat 500) seeded) in
  accounts_heap (snd (process 0%nat w)) = accounts_heap w.
Proof.
  intros w.
  apply (process_failed_unchanged w (snd (process 0%nat w)) 0%nat
           (mkTransaction 1 (Some 1%nat) (Some 2%nat) 500 PENDING) 1%nat 2%nat
           (mkAccount 102 0%nat 150 []) (mkAccount 201 1%nat 300 [])
           (fst (process 0%nat w))).
  - reflexivity.
  - reflexivity.
  - reflexivity.
  - reflexivity.
  - reflexivity.
  - vm_compute. reflexivity.
  - eexists. split; vm_compute; reflexivity.
Defined.

(** ** More on [transfer] *)






(** A [transfer] whose destination id is not in the database raises
    nothing.  If the source can pay ([amount > 0] and
    [balance >= amount]), the amount leaves the source, whose
    history is not extended, and the transaction is saved as FAILED with
    [None] as destination; the owner of the source gets the failure
    notice. *)
Theorem transfer_missing_destination (w : World) (sid did : Z) (x : f64)
    (s : ref) (sa : Account) (su : User) :
  store_accounts (db w) !! sid = Some s ->
  store_accounts (db w) !! did = None ->
  accounts_heap w !! s = Some sa ->
  users_heap w !! owner sa = Some su ->
  (0 <? x)%float = true -> (x <=? balance sa)%float = true ->
  exists w',
    transfer sid did x w = (Returned (length (txs_heap w)), w') /\
    txs_heap w' !! length (txs_heap w)
    = Some (mkTransaction (_next_tx_id (bank w)) (Some s) None x FAILED) /\
    accounts_heap w'
    = <[s := mkAccount (account_id sa) (owner sa) (balance sa - x) (_transactions sa)]>
        (accounts_heap w) /\
    store_transactions (db w') !! _next_tx_id (bank w) = Some (length (txs_heap w)) /\
    stdout w' = stdout w ++ [mkNotification (owner sa) (name su) (TransferFailed x)].
Proof.
  intros Hsid Hdid Hsa Hsu Hpos Hle. float_facts.
  rewrite transfer_unfold, Hsid, Hdid.
  eexists. split; [mrun; reflexivity|]. cbn. repeat known.
  split; [reflexivity|]. split; [reflexivity|].
  split; [apply lookup_insert_eq|reflexivity].
Qed.

Lemma transfer_missing_destination_witness :
  exists w',
    transfer 101 999 50 seeded = (Returned 0%nat, w') /\
    txs_heap w' !! 0%nat = Some (mkTransaction 1 (Some 0%nat) None 50 FAILED) /\
    accounts_heap w'
    = <[0%nat := mkAccount 101 0%nat (500 - 50) []]> (accounts_heap seeded) /\
    store_transactions (db w') !! 1 = Some 0%nat /\
    stdout w' = [] ++ [mkNotification 0%nat "Alice" (TransferFailed 50)].
Proof.
  apply (transfer_missing_destination seeded 101 999 50 0%nat
           (mkAccount 101 0%nat 500 []) (mkUser 1 "Alice" [0%nat; 1%nat]));
    reflexivity.
Defined.



(** ** What no sequence of calls changes *)

(** An invariant that the writes of the methods and the allocations
    maintain holds after every call, hence after every sequence of calls. *)
Section Exec.
Context (I : World -> Prop).
Hypothesis I_users : forall w h, I w -> I (set_users_heap h w).
Hypothesis I_db : forall w d, I w -> I (set_db d w).
Hypothesis I_stdout : forall w o, I w -> I (set_stdout o w).
Hypothesis I_bank : forall w b, I w -> I (set_bank b w).
Hypothesis I_new_account : forall w a,
  I w -> I (set_accounts_heap (accounts_heap w ++ [a]) w).
Hypothesis I_new_tx : forall w t,
  I w -> I (set_txs_heap (txs_heap w ++ [t]) w).
Hypothesis I_status : forall w r t s,
  s <> PENDING -> txs_heap w !! r = Some t -> I w ->
  I (set_txs_heap (<[r := mkTransaction (tx_id t) (source t) (destination t) (amount t) s]>
                     (txs_heap w)) w).
Hypothesis I_history : forall w r a tx,
  accounts_heap w !! r = Some a -> I w ->
  I (set_accounts_heap
       (<[r := mkAccount (account_id a) (owner a) (balance a) (_transactions a ++ [tx])]>
          (accounts_heap w)) w).
Hypothesis I_deposit : forall w r a x,
  accounts_heap w !! r = Some a -> (x <=? 0)%float = false -> I w ->
  I (set_accounts_heap
       (<[r := mkAccount (account_id a) (owner a) (balance a + x) (_transactions a)]>
          (accounts_heap w)) w).
Hypothesis I_withdraw : forall w r a x,
  accounts_heap w !! r = Some a -> (x <=? 0)%float = false ->
  (balance a <? x)%float = false -> I w ->
  I (set_accounts_heap
       (<[r := mkAccount (account_id a) (owner a) (balance a - x) (_transactions a)]>
          (accounts_heap w)) w).

Lemma exec_preserves (o : Op) (w : World) : I w -> I (exec o w).
Proof.
  intros H. destruct o; cbn [exec].
  - apply I_users, H.
  - apply preserves_add_account; assumption.
  - unfold Account_init, of_result. rewrite run_bind.
    destruct (float balance0) as [f|e]; [|exact H].
    rewrite run_bind. cbn.
    apply (preserves_bind I).
    + apply preserves_add_account; assumption.
    + intros _. apply preserves_ret.
    + apply I_new_account, H.
  - apply preserves_deposit; assumption.
  - apply preserves_withdraw; assumption.
  - apply preserves_add_transaction; assumption.
  - unfold Transaction_init, of_result. rewrite run_bind.
    destruct (float amount0) as [f|e]; [|exact H].
    apply I_new_tx, H.
  - apply preserves_validate; assumption.
  - apply preserves_process; assumption.
  - apply preserves_save_user; assumption.
  - apply preserves_save_account; assumption.
  - apply preserves_save_transaction; assumption.
  - apply preserves_login; assumption.
  - apply preserves_list_accounts; assumption.
  - apply preserves_notify; assumption.
  - rewrite transfer_unfold. apply preserves_transfer_rest; try assumption.
    apply I_bank, I_new_tx, H.
Qed.

Lemma run_preserves (ops : list Op) (w : World) : I w -> I (run ops w).
Proof.
  revert w. induction ops as [|o ops IH]; intros w H; [exact H|].
  cbn. apply IH, exec_preserves, H.
Qed.
End Exec.

Lemma same_transaction_refl (t : Transaction) : same_transaction t t.
Proof. repeat split. Qed.

(** No sequence of calls at the public interface removes a transaction or
    changes its id, its source, its destination or its amount: only the
    status of a transaction ever changes. *)
Theorem transactions_only_change_status (ops : list Op) (w : World) (r : ref)
    (t : Transaction) :
  txs_heap w !! r = Some t -> keeps_transaction r t (run ops w).
Proof.
  intros Ht. apply (run_preserves (keeps_transaction r t));
    try (intros; assumption).
  - intros w0 t0 (t' & Hr & Hsame). exists t'. split; [|exact Hsame].
    cbn. apply lookup_app_l_Some, Hr.
  - intros w0 r0 t0 s _ Hr0 (t' & Hr & Hsame). cbn.
    destruct (decide (r0 = r)) as [->|Hne].
    + eexists. split; [apply list_lookup_insert_eq; allocated|].
      assert (t' = t0) as -> by congruence. exact Hsame.
    + exists t'. split; [|exact Hsame]. cbn.
      rewrite list_lookup_insert_ne by exact Hne. exact Hr.
  - exists t. split; [exact Ht|apply same_transaction_refl].
Qed.

Lemma transactions_only_change_status_witness :
  let w := snd (transfer 101 201 120 seeded) in
  keeps_transaction 0%nat (mkTransaction 1 (Some 0%nat) (Some 2%nat) 120 COMPLETED)
    (run [OpProcess 0%nat; OpWithdraw 0%nat 300; OpProcess 0%nat;
          OpTransfer 201 101 1; OpSaveTransaction 0%nat] w).
Proof.
  intros w. apply transactions_only_change_status. reflexivity.
Defined.

(** No sequence of calls at the public interface returns a transaction
    that has left PENDING to that status. *)
Theorem status_never_back_to_pending (ops : list Op) (w : World) (r : ref)
    (t : Transaction) :
  txs_heap w !! r = Some t -> status t <> PENDING ->
  exists t', txs_heap (run ops w) !! r = Some t' /\ status t' <> PENDING.
Proof.
  intros Ht Hst.
  apply (run_preserves
           (fun w' => exists t', txs_heap w' !! r = Some t' /\ status t' <> PENDING));
    try (intros; assumption).
  - intros w0 t0 (t' & Hr & Hs). exists t'. split; [|exact Hs].
    cbn. apply lookup_app_l_Some, Hr.
  - intros w0 r0 t0 s Hs0 Hr0 (t' & Hr & Hs). cbn.
    destruct (decide (r0 = r)) as [->|Hne].
    + eexists. split; [apply list_lookup_insert_eq; allocated|]. exact Hs0.
    + exists t'. split; [|exact Hs]. rewrite list_lookup_insert_ne by exact Hne.
      exact Hr.
  - exists t. split; [exact Ht|exact Hst].
Qed.

Lemma status_never_back_to_pending_witness :
  let w := snd (transfer 101 201 120 seeded) in
  exists t',
    txs_heap (run [OpProcess 0%nat; OpWithdraw 0%nat 300; OpProcess 0%nat;
                   OpTransfer 201 101 1] w) !! 0%nat = Some t' /\
    status t' <> PENDING.
Proof.
  intros w.
  apply (status_never_back_to_pending _ w 0%nat
           (mkTransaction 1 (Some 0%nat) (Some 2%nat) 120 COMPLETED));
    [reflexivity | discriminate].
Defined.

Lemma account_grows_write (a a' : Account) (b : f64) (l : list ref) :
  account_grows a a' -> account_grows a (mkAccount (account_id a') (owner a') b
                                           (_transactions a' ++ l)).
Proof.
  intros (Hi & Ho & Hp). repeat split; cbn; try assumption.
  apply prefix_app_r, Hp.
Qed.

(** No sequence of calls at the public interface removes an account,
    changes its id or its owner, or removes or reorders an entry of its
    history: the history only grows at its end. *)
Theorem accounts_keep_identity_and_history (ops : list Op) (w : World) (r : ref)
    (a : Account) :
  accounts_heap w !! r = Some a -> keeps_account r a (run ops w).
Proof.
  assert (forall w0 r0 a0 b l,
             accounts_heap w0 !! r0 = Some a0 -> keeps_account r a w0 ->
             keeps_account r a
               (set_accounts_heap
                  (<[r0 := mkAccount (account_id a0) (owner a0) b (_transactions a0 ++ l)]>
                     (accounts_heap w0)) w0)) as Hwrite.
  { intros w0 r0 a0 b l Hr0 (a' & Hr & Hg). cbn.
    destruct (decide (r0 = r)) as [->|Hne].
    - eexists. split; [apply list_lookup_insert_eq; allocated|].
      assert (a' = a0) as -> by congruence. apply account_grows_write, Hg.
    - exists a'. split; [|exact Hg]. cbn.
      rewrite list_lookup_insert_ne by exact Hne. exact Hr. }
  intros Ha. apply (run_preserves (keeps_account r a));
    try (intros; assumption).
  - intros w0 a0 (a' & Hr & Hg). exists a'. split; [|exact Hg].
    cbn. apply lookup_app_l_Some, Hr.
  - intros w0 r0 a0 tx Hr0 H. apply Hwrite; assumption.
  - intros w0 r0 a0 x Hr0 _ H.
    rewrite <- (app_nil_r (_transactions a0)). apply Hwrite; assumption.
  - intros w0 r0 a0 x Hr0 _ _ H.
    rewrite <- (app_nil_r (_transactions a0)). apply Hwrite; assumption.
  - exists a. split; [exact Ha|]. split; [reflexivity|]. split; reflexivity.
Qed.

Lemma accounts_keep_identity_and_history_witness :
  let w := snd (transfer 101 201 120 seeded) in
  keeps_account 0%nat (mkAccount 101 0%nat 380 [0%nat])
    (run [OpTransfer 201 101 20; OpWithdraw 0%nat 300; OpAddTransaction 0%nat 7%nat;
          OpAccount 101 1%nat (PyInt 5); OpSaveAccount 3%nat] w).
Proof.
  intros w. apply accounts_keep_identity_and_history. reflexivity.
Defined.
